(** * CalCulator: the caloric-needs engine of [calculate.py]

    A shallow embedding of [calculate_weight_trend] and
    [calculate_caloric_needs] together with the properties the written
    specification states about them.

    Numeric model.  Python [float] values are modelled by the real numbers
    [R] of the Standard Library: [np.exp] is [exp], [x ** 0.55] is [Rpower]
    where Python stays in the reals, and [round] is rounding to the nearest
    integer with ties to even.  The rounding error, overflow and signed zero
    of binary64 are outside this model.  The two places where the source
    leaves the reals are kept: a division by a zero half-life (numpy yields
    NaN) and a fractional power of a negative base (Python yields a complex
    number, which [round] refuses with a [TypeError]).

    Binary64 model.  What the rounded fields of a result are depends on how
    floats round.  Module [B64] therefore translates the same two functions
    a second time over IEEE 754 binary64, the primitive floats of the
    Standard Library, with [np.exp] and the C library's [pow] as a
    parameter; the properties of the rounded targets are stated there.

    Storage model.  The functions of [calculate.py] that read and write the
    database ([create_user], [get_user], [submit_updated_info],
    [weight_entry], [get_trend_data], [get_view_data], [export_db_to_csv],
    [import_csv_to_db] and the SELECTs of [calculate_caloric_needs]) work on
    a record of the three tables, module [Db]; dialogs, files and widgets
    are reduced to the values they pass in or out. *)

From Stdlib Require Import Reals Lra Lia ZArith List String Ascii Bool.
From Stdlib Require Import DecimalString DecimalPos Permutation.
From Stdlib Require Import QArith Qround Qabs PrimFloat SpecFloat FloatOps.
Import ListNotations.

Open Scope string_scope.
Open Scope R_scope.

Set Warnings "-inexact-float".

(** ** Python primitives used by the source *)

Module Py.

(** The exceptions the modelled code can raise. *)
Inductive exn : Type :=
| ValueError (msg : string)
| TypeError (msg : string).

(** A numpy scalar: a real number, or NaN. *)
Inductive np_float : Type :=
| np_value (x : R)
| np_nan.

Definition Rleb (x y : R) : bool := if Rle_dec x y then true else false.
Definition Rltb (x y : R) : bool := if Rlt_dec x y then true else false.

(** [round(x)]: nearest integer, ties to the even neighbour. *)
Definition py_round (x : R) : Z :=
  let n := Zfloor x in
  let d := x - IZR n in
  if Rltb d (1 / 2) then n
  else if Rltb (1 / 2) d then (n + 1)%Z
  else if Z.even n then n else (n + 1)%Z.

(** [x ** y] on floats for a positive non-integral exponent [y] (the
    source uses [y = 0.55]): a negative base gives a complex number,
    rendered as [None]; a zero base gives [0.0]. *)
Definition float_pow (x y : R) : option R :=
  if Rltb x 0 then None
  else if Req_dec_T x 0 then Some 0
  else Some (Rpower x y).

Definition string_of_Z (z : Z) : string :=
  NilZero.string_of_int (Z.to_int z).

Definition two_digits (n : Z) : string :=
  if (n <? 10)%Z then ("0" ++ string_of_Z n)%string else string_of_Z n.

(** [f"{x:.2f}"]: sign, then [|x|] rounded to hundredths, ties to even. *)
Definition format_2f (x : R) : string :=
  let c := py_round (Rabs x * 100) in
  ((if Rltb x 0 then "-" else "")
     ++ string_of_Z (c / 100) ++ "." ++ two_digits (c mod 100))%string.

Definition ascii_lower (c : ascii) : ascii :=
  let n := nat_of_ascii c in
  if ((65 <=? n) && (n <=? 90))%nat then ascii_of_nat (n + 32) else c.

(** [str.lower()] on ASCII text. *)
Fixpoint lower (s : string) : string :=
  match s with
  | EmptyString => EmptyString
  | String c rest => String (ascii_lower c) (lower rest)
  end.

(** [dict.get] on a dict literal, as an association list. *)
Fixpoint dict_get {V : Type} (d : list (string * V)) (k : string) : option V :=
  match d with
  | [] => None
  | (k', v) :: rest => if String.eqb k' k then Some v else dict_get rest k
  end.

(** [np.arange(n)]. *)
Definition arange (n : nat) : list R := map INR (seq 0 n).

(** [np.sum] and [sum] of a sequence of floats. *)
Definition np_sum (xs : list R) : R := fold_right Rplus 0 xs.

(** Elementwise product of two arrays of the same length. *)
Definition np_mul (xs ys : list R) : list R :=
  map (fun p => fst p * snd p) (combine xs ys).

End Py.
Import Py.

(** ** The Trend Estimator *)

(** [np.exp(-np.arange(days) / half_life)], for a non-zero [half_life]. *)
Definition raw_decay (days : nat) (half_life : Z) : list R :=
  map (fun i => exp (- i / IZR half_life)) (arange days).

(** The same array after [decay_weights /= decay_weights.sum()]. *)
Definition decay_weights (days : nat) (half_life : Z) : list R :=
  let raw := raw_decay days half_life in
  let total := np_sum raw in
  map (fun d => d / total) raw.

(** [calculate_weight_trend(weights, half_life=7)].  Nothing in the source
    checks [half_life]; with [half_life = 0] numpy divides by zero and every
    decay weight of a non-empty series becomes NaN, while the arrays of an
    empty series stay empty and sum to [0.0]. *)
Definition calculate_weight_trend (weights : list R) (half_life : Z) : np_float :=
  let days := List.length weights in
  if (half_life =? 0)%Z then
    match weights with
    | [] => np_value 0
    | _ :: _ => np_nan
    end
  else
    np_value (np_sum (np_mul weights (decay_weights days half_life))).

(** ** The Caloric Needs Calculator *)

(** The dict returned by [calculate_caloric_needs]. *)
Record caloric_needs : Type := {
  BMR : Z;
  Maintenance : Z;
  Gain : Z;
  Lose : Z;
  Recommendation : string;
  Warning : string
}.

(** A row of [SELECT sex, age, height, activity_level FROM users]. *)
Definition user_row : Type := (string * Z * Z * string)%type.

Definition pal_dict : list (string * R) :=
  [ ("sedentary", 1.2);
    ("lightly active", 1.375);
    ("moderately active", 1.55);
    ("very active", 1.725);
    ("extremely active", 1.9) ]%string.

Definition maintaining_message : string :=
  String.append
    "You are maintaining weight. Continue at your current calorie level"
    (String "010"%char "if you want to stay around this weight.").

Definition losing_message (avg_weight_change : R) : string :=
  ("You are losing weight at " ++ format_2f avg_weight_change ++ " lbs/week."
   ++ "Consider increasing calories if you don't want to lose weight this quickly.")%string.

Definition gaining_message (avg_weight_change : R) : string :=
  ("You are gaining weight at " ++ format_2f avg_weight_change ++ " lbs/week."
   ++ "Consider reducing calories if you don't want to gain weight this quickly.")%string.

Definition losing_warning : string :=
  "Warning: You are losing weight too rapidly. Consider increasing calories.".

Definition gaining_warning : string :=
  "Warning: You are gaining weight too rapidly. Consider reducing calories.".

(** The Katch-McArdle style estimate of the source; [None] when the power
    of a negative weight leaves the reals. *)
Definition bmr_of (w0 : R) (sex : string) (age height : Z) : option R :=
  option_map
    (fun p =>
       129.6 * p
       + 0.011 * ((IZR height * 2.54) ^ 2)
       - (if (age <=? 60)%Z then 1.96 * IZR age else 4.9 * (IZR age - 60))
       - 213.8 * (if String.eqb (lower sex) "male" then 0 else 1))
    (float_pow (w0 * 0.453592) 0.55).

(** The branch on the weekly rate: recommendation, maintenance, gain and
    lose calories as they stand after the [if]/[elif] chain. *)
Definition adjust (delta avg_weight_change c0 maintenance_calories
                   gain_calories lose_calories : R) : string * R * R * R :=
  if Rleb (- delta) avg_weight_change && Rleb avg_weight_change delta then
    let maintenance_calories := IZR (py_round c0) in
    (maintaining_message,
     maintenance_calories,
     maintenance_calories + (0.5 * 3500) / 7,
     maintenance_calories - (1.0 * 3500) / 7)
  else if Rltb avg_weight_change (- delta) then
    (losing_message avg_weight_change,
     maintenance_calories, gain_calories, lose_calories)
  else if Rltb delta avg_weight_change then
    (gaining_message avg_weight_change,
     maintenance_calories, gain_calories, lose_calories)
  else
    (EmptyString, maintenance_calories, gain_calories, lose_calories).

Definition rapid_change (avg_weight_change : R) : string :=
  if Rltb avg_weight_change (-1.5) then losing_warning
  else if Rltb 0.75 avg_weight_change then gaining_warning
  else EmptyString.

(** [calculate_caloric_needs] after its three SELECTs: [weights_data] and
    [calories_data] are the fetched [(value, date)] rows, most recent first,
    and [user_data] is the result of [fetchone()] on the users table.  The
    weight column is REAL; the calorie column is read as a Python number and
    passed through [round] by the source, so both are reals here; age and
    height are the INTEGER columns of the schema. *)
Definition calculate_caloric_needs
    (weights_data calories_data : list (R * string))
    (user_data : option user_row) : exn + caloric_needs :=
  if negb (List.length weights_data =? List.length calories_data)%nat then
    inl (ValueError "Weights and calories lists must have the same length.")
  else
    let weights := map fst weights_data in
    let calories := map fst calories_data in
    match weights, calories with
    | [], _ | _, [] => inl (ValueError "No data found for the user.")
    | w0 :: _, c0 :: _ =>
      match user_data with
      | None => inl (ValueError "User data not found.")
      | Some (sex, age, height, activity_level) =>
        let bmr := bmr_of w0 sex age height in
        match dict_get pal_dict activity_level with
        | None => inl (ValueError "Invalid activity level.")
        | Some pal =>
          if Req_dec_T pal 0 then inl (ValueError "Invalid activity level.")
          else
            let maintenance_bmr := option_map (fun b => b * pal) bmr in
            let delta := 0.1 in
            match calculate_weight_trend weights 7 with
            | np_nan =>
              match maintenance_bmr with
              | None =>
                inl (TypeError "type complex doesn't define __round__ method")
              | Some _ =>
                inl (ValueError "cannot convert float NaN to integer")
              end
            | np_value weight_trend =>
              let avg_weight_change :=
                (weight_trend - w0) / (INR (List.length weights) / 7) in
              let avg_calories := np_sum calories / INR (List.length calories) in
              let energy_balance := avg_weight_change * 3500 in
              let maintenance_calories := avg_calories - energy_balance in
              let gain_calories := maintenance_calories + (0.5 * 3500) / 7 in
              let lose_calories := maintenance_calories - (1.0 * 3500) / 7 in
              let '(recommendation, maintenance_calories,
                    gain_calories, lose_calories) :=
                adjust delta avg_weight_change c0 maintenance_calories
                       gain_calories lose_calories in
              let rapid_change_warning := rapid_change avg_weight_change in
              match maintenance_bmr with
              | None =>
                inl (TypeError "type complex doesn't define __round__ method")
              | Some maintenance_bmr =>
                inr {| BMR := py_round maintenance_bmr;
                       Maintenance := py_round maintenance_calories;
                       Gain := py_round gain_calories;
                       Lose := py_round lose_calories;
                       Recommendation := recommendation;
                       Warning := rapid_change_warning |}
              end
            end
        end
      end
    end.

(** ** The specification's formulas, written from its words *)

Module Spec.

Inductive Sex : Type := male | female.

Inductive ActivityLevel : Type :=
| sedentary
| lightly_active
| moderately_active
| very_active
| extremely_active.

(** The sum of [f 0], ..., [f (n - 1)]. *)
Fixpoint sum_upto (f : nat -> R) (n : nat) : R :=
  match n with
  | O => 0
  | S k => sum_upto f k + f k
  end.

(** Decay weight of position [i] in a series of [n] samples. *)
Definition decay (h : R) (n i : nat) : R :=
  exp (- INR i / h) / sum_upto (fun j => exp (- INR j / h)) n.

(** The recency-weighted average: the sum of [w_i * d_i]. *)
Definition trend (weights : list R) (h : R) : R :=
  let n := List.length weights in
  sum_upto (fun i => nth i weights 0 * decay h n i) n.

(** [x ^ y] for a base [x >= 0] and an exponent [y > 0]. *)
Definition real_pow (x y : R) : R :=
  if Req_dec_T x 0 then 0 else Rpower x y.

Definition age_adjustment (age : Z) : R :=
  if (age <=? 60)%Z then 1.96 * IZR age else 4.9 * (IZR age - 60).

Definition sex_adjustment (s : Sex) : R :=
  match s with male => 0 | female => 213.8 end.

Definition bmr (current_weight : R) (height age : Z) (s : Sex) : R :=
  129.6 * real_pow (current_weight * 0.453592) 0.55
  + 0.011 * (IZR height * 2.54) ^ 2
  - age_adjustment age
  - sex_adjustment s.

Definition activity_factor (a : ActivityLevel) : R :=
  match a with
  | sedentary => 1.2
  | lightly_active => 1.375
  | moderately_active => 1.55
  | very_active => 1.725
  | extremely_active => 1.9
  end.

Definition average (xs : list R) : R :=
  sum_upto (fun i => nth i xs 0) (List.length xs) / INR (List.length xs).

Definition avg_weight_change_per_week (weights : list R) : R :=
  (trend weights 7 - nth 0 weights 0) / (INR (List.length weights) / 7).

Definition maintenance_calories (weights calories : list R) : R :=
  average calories - avg_weight_change_per_week weights * 3500.

Definition list_min (w : R) (ws : list R) : R := fold_right Rmin w ws.
Definition list_max (w : R) (ws : list R) : R := fold_right Rmax w ws.

End Spec.

(** How the stored profile strings spell the specification's enumerations:
    the keys of [pal_dict] are written with a space, and the sex column is
    compared after [lower()]. *)
Definition activity_key (a : Spec.ActivityLevel) : string :=
  match a with
  | Spec.sedentary => "sedentary"
  | Spec.lightly_active => "lightly active"
  | Spec.moderately_active => "moderately active"
  | Spec.very_active => "very active"
  | Spec.extremely_active => "extremely active"
  end.


(** The activity level is one of the five keys of [pal_dict]. *)
Definition recognized (activity_level : string) : Prop :=
  exists a, activity_level = activity_key a.

Definition first_weight (weights_data : list (R * string)) : R :=
  nth 0 (map fst weights_data) 0.

(** The conditions under which the specification says the calculation
    fails with a data error. *)
Definition data_error_condition
    (weights_data calories_data : list (R * string))
    (user_data : option user_row) : Prop :=
  weights_data = [] \/ calories_data = []
  \/ List.length weights_data <> List.length calories_data
  \/ user_data = None
  \/ (exists sex age height activity_level,
         user_data = Some (sex, age, height, activity_level)
         /\ ~ recognized activity_level).

(** The messages of the four data errors the source raises. *)
Definition data_errors : list string :=
  [ "Weights and calories lists must have the same length.";
    "No data found for the user.";
    "User data not found.";
    "Invalid activity level." ].

(** The weekly rate and the default maintenance figure of a call, in the
    specification's terms, and the outcome of the branch on them;
    [calculate_caloric_needs_run] shows that the function computes these. *)
Definition rate_of (weights_data : list (R * string)) : R :=
  Spec.avg_weight_change_per_week (map fst weights_data).

Definition maintenance_of (weights_data calories_data : list (R * string)) : R :=
  Spec.maintenance_calories (map fst weights_data) (map fst calories_data).

Definition adjusted (weights_data calories_data : list (R * string))
  : string * R * R * R :=
  let m := maintenance_of weights_data calories_data in
  adjust 0.1 (rate_of weights_data) (nth 0 (map fst calories_data) 0)
         m (m + (0.5 * 3500) / 7) (m - (1.0 * 3500) / 7).

(** Sample rows and a registered profile, used to exercise the theorems. *)
Definition sample_day : string := "2025-01-02".

Definition sample_profile : option user_row :=
  Some ("Male", 30%Z, 70%Z, "sedentary").

(** ** The remaining functions of [calculate.py] *)

(** [trend_summary(daily_weight_change, avg_calories, delta=0.1)]. *)
Definition trend_summary (daily_weight_change avg_calories delta : R) : string :=
  let trend :=
    if Rleb (Rabs daily_weight_change) delta then
      "you are maintaining your weight."
    else if Rltb delta daily_weight_change then
      "you are gaining weight at " ++ format_2f daily_weight_change
        ++ "lbs/day."
    else
      "you are losing weight at " ++ format_2f (Rabs daily_weight_change)
        ++ "lbs/day."
  in
  "Eating " ++ string_of_Z (py_round avg_calories)
    ++ " calories on average, " ++ trend.

(** The SQLite database behind [conn], reduced to the three tables of
    [create_tables].  Rows are kept in insertion (rowid) order.  Values are
    typed as the columns declare them; the conversions SQLite applies to the
    text the forms pass in are outside this model. *)
Module Db.

(** A row of [users]. *)
Record user_rec : Type := mk_user {
  u_id : Z;
  u_username : string;
  u_password : string;
  u_sex : string;
  u_age : Z;
  u_height : Z;
  u_activity_level : string
}.

(** A row of [weights] or of [calories]: [(user_id, value, date)]. *)
Definition data_row : Type := (Z * R * string)%type.

Definition row_user (r : data_row) : Z := fst (fst r).
Definition row_value (r : data_row) : R := snd (fst r).
Definition row_date (r : data_row) : string := snd r.

Record conn : Type := mk_conn {
  users : list user_rec;
  weights : list data_row;
  calories : list data_row
}.

(** The database right after [create_tables] on a new file. *)
Definition create_tables : conn := mk_conn [] [] [].

Inductive sql_error : Type :=
| IntegrityError (msg : string).

(** [WHERE user_id = ?]. *)
Definition of_user (user_id : Z) (r : data_row) : bool :=
  (row_user r =? user_id)%Z.

(** [WHERE user_id = ? AND date = ?]. *)
Definition matches (user_id : Z) (date : string) (r : data_row) : bool :=
  (row_user r =? user_id)%Z && String.eqb (row_date r) date.

(** The rowid an AUTOINCREMENT column gives the next row; the code never
    deletes, so the largest rowid ever used is the largest present. *)
Definition next_rowid (us : list user_rec) : Z :=
  (1 + fold_right Z.max 0 (map u_id us))%Z.

(** [create_user]: the new rowid, or the failure of [username TEXT UNIQUE]. *)
Definition create_user (c : conn) (username password sex : string)
           (age height : Z) (activity_level : string)
  : sql_error + (conn * Z) :=
  if existsb (fun u => String.eqb (u_username u) username) (users c) then
    inl (IntegrityError "UNIQUE constraint failed: users.username")
  else
    let rowid := next_rowid (users c) in
    inr (mk_conn
           (app (users c)
                [mk_user rowid username password sex age height activity_level])
           (weights c) (calories c),
         rowid).

(** [get_user]: the id of the first row with this name and password. *)
Definition get_user (c : conn) (username password : string) : option Z :=
  match find (fun u => String.eqb (u_username u) username
                       && String.eqb (u_password u) password) (users c) with
  | Some user => Some (u_id user)
  | None => None
  end.

(** [submit_updated_info]: the UPDATE of one user's age, height and level. *)
Definition submit_updated_info (c : conn) (user_id : Z) (age height : Z)
           (activity_level : string) : conn :=
  mk_conn
    (map (fun u =>
            if (u_id u =? user_id)%Z then
              mk_user (u_id u) (u_username u) (u_password u) (u_sex u)
                      age height activity_level
            else u)
         (users c))
    (weights c) (calories c).

(** The title of the information box [weight_entry] ends with. *)
Inductive notice : Type := Cancelled | Success.

(** [UPDATE t SET value = ? WHERE user_id = ? AND date = ?]. *)
Definition update_rows (t : list data_row) (user_id : Z) (date : string)
           (value : R) : list data_row :=
  map (fun r => if matches user_id date r then (row_user r, value, row_date r)
                else r) t.

(** The table a non-cancelled [weight_entry] leaves behind: the UPDATE when
    a row for the date exists, the INSERT otherwise. *)
Definition upserted (t : list data_row) (user_id : Z) (date : string)
           (value : R) : list data_row :=
  if existsb (matches user_id date) t then update_rows t user_id date value
  else app t [(user_id, value, date)].

(** [weight_entry]; [reply_yes] is the answer to the "Data Exists" question,
    which is only asked when a row for the date exists. *)
Definition weight_entry (c : conn) (user_id : Z) (selected_date : string)
           (weight calories_value : R) (reply_yes : bool) : conn * notice :=
  let weight_entry := existsb (matches user_id selected_date) (weights c) in
  let calorie_entry := existsb (matches user_id selected_date) (calories c) in
  if (weight_entry || calorie_entry) && negb reply_yes then (c, Cancelled)
  else
    let weights' :=
      if weight_entry then update_rows (weights c) user_id selected_date weight
      else app (weights c) [(user_id, weight, selected_date)] in
    let calories' :=
      if calorie_entry then
        update_rows (calories c) user_id selected_date calories_value
      else app (calories c) [(user_id, calories_value, selected_date)] in
    (mk_conn (users c) weights' calories', Success).

(** [ORDER BY key DESC] on a TEXT column, which SQLite compares byte by
    byte.  Rows with equal keys stay in table order here; SQLite leaves
    their order open. *)
Fixpoint insert_desc {A : Type} (key : A -> string) (r : A) (l : list A)
  : list A :=
  match l with
  | [] => [r]
  | x :: xs =>
    if String.leb (key x) (key r) then r :: l
    else x :: insert_desc key r xs
  end.

Definition order_by_desc {A : Type} (key : A -> string) (l : list A) : list A :=
  fold_right (insert_desc key) [] l.

(** [LIMIT n]: a negative [n] means no limit. *)
Definition sql_limit {A : Type} (n : Z) (l : list A) : list A :=
  if (n <? 0)%Z then l else firstn (Z.to_nat n) l.

(** [SELECT value, date FROM t WHERE user_id = ? ORDER BY date DESC LIMIT ?]. *)
Definition select_recent (t : list data_row) (user_id limit : Z)
  : list (R * string) :=
  sql_limit limit
    (order_by_desc snd
       (map (fun r => (row_value r, row_date r)) (filter (of_user user_id) t))).

(** [SELECT sex, age, height, activity_level FROM users WHERE id = ?]. *)
Definition select_profile (c : conn) (user_id : Z) : option user_row :=
  match find (fun u => (u_id u =? user_id)%Z) (users c) with
  | Some u => Some (u_sex u, u_age u, u_height u, u_activity_level u)
  | None => None
  end.

(** [calculate_caloric_needs(conn, user_id, period_days=-1)] with its three
    SELECTs: the limit is [period_days if period_days else -1]. *)
Definition calculate_caloric_needs_conn (c : conn) (user_id period_days : Z)
  : exn + caloric_needs :=
  let limit := if (period_days =? 0)%Z then (-1)%Z else period_days in
  calculate_caloric_needs (select_recent (weights c) user_id limit)
                          (select_recent (calories c) user_id limit)
                          (select_profile c user_id).

(** Rows numbered by [ROW_NUMBER() OVER (ORDER BY date DESC)] and kept
    while [row_num <= period_days]; a falsy [period_days] ([None] or [0])
    selects every row. *)
Definition window {A : Type} (period_days : option Z) (rows : list A) : list A :=
  match period_days with
  | Some n => if (n =? 0)%Z then rows else firstn (Z.to_nat n) rows
  | None => rows
  end.

(** [get_trend_data]: [(date, weight)] rows. *)
Definition get_trend_data (c : conn) (user_id : Z) (period_days : option Z)
  : list (string * R) :=
  window period_days
    (order_by_desc fst
       (map (fun r => (row_date r, row_value r))
            (filter (of_user user_id) (weights c)))).

(** [weights LEFT JOIN calories USING (user_id, date)] for one weight row. *)
Definition left_join (cals : list data_row) (w : data_row)
  : list (string * R * option R) :=
  match filter (matches (row_user w) (row_date w)) cals with
  | [] => [(row_date w, row_value w, None)]
  | k :: ks =>
    map (fun k' => (row_date w, row_value w, Some (row_value k'))) (k :: ks)
  end.

(** [get_view_data]: [(date, weight, calories)] rows, calories [None] when
    the date has no calorie row. *)
Definition get_view_data (c : conn) (user_id : Z) (period_days : option Z)
  : list (string * R * option R) :=
  window period_days
    (order_by_desc (fun r => fst (fst r))
       (flat_map (left_join (calories c))
                 (filter (of_user user_id) (weights c)))).

(** [list.insert(i, x)] for [i >= 0]. *)
Definition list_insert {A : Type} (i : nat) (x : A) (l : list A) : list A :=
  app (firstn i l) (x :: skipn i l).

(** [data[date].insert(i, value)] on the [defaultdict(lambda: [None, None])]
    of [export_db_to_csv]; keys stay in first-insertion order. *)
Fixpoint dd_insert (data : list (string * list (option R))) (date : string)
         (i : nat) (value : R) : list (string * list (option R)) :=
  match data with
  | [] => [(date, list_insert i (Some value) [None; None])]
  | (d, values) :: rest =>
    if String.eqb d date then (d, list_insert i (Some value) values) :: rest
    else (d, values) :: dd_insert rest date i value
  end.

(** [data.get(date)]: the list stored under a date, if any. *)
Fixpoint dd_get (data : list (string * list (option R))) (date : string)
  : option (list (option R)) :=
  match data with
  | [] => None
  | (d, values) :: rest =>
    if String.eqb d date then Some values else dd_get rest date
  end.

Definition csv_header : list string := ["Date"; "Weight"; "Calories"].

(** A stored list that starts with the [None] of the default and holds at
    least two more fields. *)
Definition padded (values : list (option R)) : Prop :=
  exists rest, values = None :: rest /\ (2 <= List.length rest)%nat.

(** The rows [export_db_to_csv] writes under the header: each is
    [[date, *values]], a [None] being written as an empty field. *)
Definition export_db_to_csv (c : conn) (user_id : Z)
  : list (string * list (option R)) :=
  let weights :=
    map (fun r => (row_date r, row_value r))
        (filter (of_user user_id) (weights c)) in
  let calories :=
    map (fun r => (row_date r, row_value r))
        (filter (of_user user_id) (calories c)) in
  let data := fold_left (fun data dw => dd_insert data (fst dw) 1 (snd dw))
                        weights [] in
  fold_left (fun data dc => dd_insert data (fst dc) 2 (snd dc)) calories data.

(** A row of the imported file after [strptime], [float] and [int]: the
    stored ISO date, and the Weight and Calories fields, [None] when the
    column is missing or empty.  A row on which a conversion fails is
    outside this model. *)
Record csv_row : Type := mk_csv_row {
  csv_date : string;
  csv_weight : option R;
  csv_calories : option Z
}.

Definition import_row (user_id : Z) (c : conn) (row : csv_row) : conn :=
  let c :=
    match csv_weight row with
    | Some w =>
      mk_conn (users c) (app (weights c) [(user_id, w, csv_date row)])
              (calories c)
    | None => c
    end in
  match csv_calories row with
  | Some k =>
    mk_conn (users c) (weights c)
            (app (calories c) [(user_id, IZR k, csv_date row)])
  | None => c
  end.

(** [import_csv_to_db]: every row is INSERTed, never matched against the
    rows already stored. *)
Definition import_csv_to_db (c : conn) (rows : list csv_row) (user_id : Z)
  : conn :=
  fold_left (import_row user_id) rows c.

(** The rows a file contributes to each table. *)
Definition imported_weights (user_id : Z) (rows : list csv_row)
  : list data_row :=
  flat_map (fun row => match csv_weight row with
                       | Some w => [(user_id, w, csv_date row)]
                       | None => []
                       end) rows.

Definition imported_calories (user_id : Z) (rows : list csv_row)
  : list data_row :=
  flat_map (fun row => match csv_calories row with
                       | Some k => [(user_id, IZR k, csv_date row)]
                       | None => []
                       end) rows.

(** How many rows of a table belong to a user and a date. *)
Definition entries (t : list data_row) (user_id : Z) (date : string) : nat :=
  List.length (filter (matches user_id date) t).

(** Both tables hold the same number of rows for every user and date. *)
Definition synced (c : conn) : Prop :=
  forall user_id date,
    entries (weights c) user_id date = entries (calories c) user_id date.

(** No user has two rows for one date in either table. *)
Definition one_per_day (c : conn) : Prop :=
  forall user_id date,
    (entries (weights c) user_id date <= 1)%nat
    /\ (entries (calories c) user_id date <= 1)%nat.

(** The databases the forms can produce: registration, profile updates and
    data entry, starting from the empty tables.  CSV import is left out. *)
Inductive reachable : conn -> Prop :=
| reach_create_tables : reachable create_tables
| reach_create_user c username password sex age height activity_level c' rowid :
    reachable c ->
    create_user c username password sex age height activity_level
    = inr (c', rowid) ->
    reachable c'
| reach_submit_updated_info c user_id age height activity_level :
    reachable c ->
    reachable (submit_updated_info c user_id age height activity_level)
| reach_weight_entry c user_id date weight calories_value reply_yes :
    reachable c ->
    reachable (fst (weight_entry c user_id date weight calories_value
                                 reply_yes)).

End Db.

(** ** Pieces of [main.py] that feed the storage functions *)

(** The entries of the activity-level box of the update form, whose current
    text [submit_user_info] hands to [submit_updated_info]. *)
Definition activity_level_items : list string :=
  [ "Sedentary (little or no exercise)";
    "Lightly active (light exercise/sports 1-3 days/week)";
    "Moderately active (moderate exercise/sports 3-5 days/week)";
    "Very active (hard exercise/sports 6-7 days a week)";
    "Extremely active (very hard exercise & physical job or 2x training)" ].



Fixpoint zeros (n : nat) : string :=
  match n with
  | O => EmptyString
  | S k => String "0" (zeros k)
  end.

Definition zero_pad (width : nat) (s : string) : string :=
  zeros (width - String.length s) ++ s.

(** [QDate.toString("yyyy-MM-d")] as [submit_data] calls it: a four-digit
    year, a two-digit month, and the day without a leading zero. *)
Definition selected_date (year month day : Z) : string :=
  zero_pad 4 (string_of_Z year) ++ "-" ++ zero_pad 2 (string_of_Z month)
    ++ "-" ++ string_of_Z day.

(** ** The two numeric functions in binary64 *)

(** The real-number model above says which formula the source computes; it
    cannot say what the rounded integers of a result are when the value to
    round sits next to a tie, or when an addition of floats is inexact.
    Module [B64] translates [calculate_weight_trend] and
    [calculate_caloric_needs] once more, over IEEE 754 binary64 as
    [PrimFloat] evaluates it.  Weights are floats (the REAL column),
    calories, age and height are integers (the INTEGER columns, within the
    64-bit range of SQLite, where the conversion of an [int] to a float
    cannot overflow). *)
Module B64.

Local Open Scope float_scope.

Inductive exn : Type :=
| ValueError (msg : string)
| TypeError (msg : string)
| OverflowError (msg : string).

Definition bind {A B : Type} (x : exn + A) (f : A -> exn + B) : exn + B :=
  match x with
  | inl e => inl e
  | inr a => f a
  end.

Notation "x <- e ;; k" := (bind e (fun x => k))
  (at level 61, e at next level, right associativity).

(** [np.exp] on a float64 array and the C function [pow] behind [**] on
    floats.  IEEE 754 does not fix their results, and numpy and the C
    library differ between platforms, so they are a parameter of the
    model. *)
Record mathlib : Type := {
  np_exp : float -> float;
  libm_pow : float -> float -> float
}.

(** A Python number of the calculation: an [int] or a [float]. *)
Inductive num : Type :=
| PyInt (z : Z)
| PyFloat (f : float).

(** The result of [**]: a float, or a complex number. *)
Inductive power : Type :=
| real (f : float)
| complex.

(** [float(z)]: the nearest binary64 number, ties to even. *)
Definition of_Z (z : Z) : float := SF2Prim (binary_normalize prec emax z 0 false).

(** The rational number a finite float stands for. *)
Definition to_Q (f : float) : Q :=
  match Prim2SF f with
  | S754_finite s m e => (inject_Z (cond_Zopp s (Z.pos m)) * Qpower 2 e)%Q
  | _ => 0%Q
  end.

Definition finite (f : float) : bool :=
  match Prim2SF f with
  | S754_nan | S754_infinity _ => false
  | _ => true
  end.

Definition to_float (x : num) : float :=
  match x with
  | PyInt z => of_Z z
  | PyFloat f => f
  end.

Definition value (x : num) : Q :=
  match x with
  | PyInt z => inject_Z z
  | PyFloat f => to_Q f
  end.

(** The nearest integer of a rational, ties to the even neighbour. *)
Definition round_half_even (q : Q) : Z :=
  let n := Qfloor q in
  match Qcompare (q - inject_Z n) (1 # 2) with
  | Lt => n
  | Gt => (n + 1)%Z
  | Eq => if Z.even n then n else (n + 1)%Z
  end.

(** [round(x)] on a float. *)
Definition py_round (x : float) : exn + Z :=
  match Prim2SF x with
  | S754_nan => inl (ValueError "cannot convert float NaN to integer")
  | S754_infinity _ =>
    inl (OverflowError "cannot convert float infinity to integer")
  | _ => inr (round_half_even (to_Q x))
  end.

(** [round(x)] on a number: an [int] is returned as it is. *)
Definition round_num (x : num) : exn + Z :=
  match x with
  | PyInt z => inr z
  | PyFloat f => py_round f
  end.

(** [a / b] on two [int]s with [b <> 0]: the quotient, correctly rounded.
    The quotient is cut after at least 55 significant bits and one sticky
    bit records a remainder. *)
Definition int_true_div (a b : Z) : float :=
  let negate := xorb (a <? 0)%Z (b <? 0)%Z in
  let n := Z.abs a in
  let d := Z.abs b in
  if (n =? 0)%Z then (if negate then neg_zero else zero)
  else
    let k := Z.max 0 (Z.log2 d + 56 - Z.log2 n) in
    let q := ((n * 2 ^ k) / d)%Z in
    let r := ((n * 2 ^ k) mod d)%Z in
    let m := (2 * q + (if (r =? 0)%Z then 0 else 1))%Z in
    SF2Prim (binary_normalize prec emax (cond_Zopp negate m) (- (k + 1)) negate).

(** [f"{x:.2f}"] on a float. *)
Definition format_2f (x : float) : string :=
  match Prim2SF x with
  | S754_nan => "nan"
  | S754_infinity s => if s then "-inf" else "inf"
  | S754_zero s => (if s then "-" else "") ++ "0.00"
  | S754_finite s _ _ =>
    let c := round_half_even (Qabs (to_Q x) * inject_Z 100) in
    (if s then "-" else "")
      ++ string_of_Z (c / 100) ++ "." ++ two_digits (c mod 100)
  end.

Definition is_integer (y : float) : bool :=
  Qeq_bool (to_Q y) (inject_Z (Qfloor (to_Q y))).

Definition is_odd_integer (y : float) : bool :=
  is_integer y && Z.odd (Qfloor (to_Q y)).

(** [x ** y] on floats for a finite exponent [y > 0] (the source uses 0.55
    and 2), following [float_pow] of CPython: the special cases are settled
    before the C library is asked, a negative base with a fractional
    exponent gives a complex number, and an infinite result of [pow] is an
    [OverflowError]. *)
Definition float_pow (m : mathlib) (x y : float) : exn + power :=
  if is_nan x then inr (real x)
  else if is_infinity x then
    inr (real (if is_odd_integer y then x else infinity))
  else if x =? 0 then
    inr (real (if is_odd_integer y then x else 0))
  else if (x <? 0) && negb (is_integer y) then inr complex
  else
    let negate_result := (x <? 0) && is_odd_integer y in
    let iv := abs x in
    if iv =? 1 then inr (real (if negate_result then -1 else 1))
    else
      let ix := libm_pow m iv y in
      if is_infinity ix then
        inl (OverflowError "(34, 'Numerical result out of range')")
      else inr (real (if negate_result then - ix else ix)).

(** The unrolled loop of numpy's pairwise summation, for a block of 8 to
    128 numbers: eight running sums over the groups of eight. *)
Fixpoint add_groups (fuel : nat) (r a : list float) : list float * list float :=
  match fuel with
  | O => (r, a)
  | S k =>
    if (8 <=? List.length a)%nat then
      add_groups k (map (fun p => fst p + snd p) (combine r (firstn 8 a)))
                 (skipn 8 a)
    else (r, a)
  end.

Definition sum_block (a : list float) : float :=
  let '(r, rest) := add_groups (List.length a) (firstn 8 a) (skipn 8 a) in
  let res :=
    ((nth 0 r 0 + nth 1 r 0) + (nth 2 r 0 + nth 3 r 0))
    + ((nth 4 r 0 + nth 5 r 0) + (nth 6 r 0 + nth 7 r 0)) in
  fold_left add rest res.

Fixpoint pairwise_sum (fuel : nat) (a : list float) : float :=
  let n := List.length a in
  if (n <? 8)%nat then fold_left add a neg_zero
  else if (n <=? 128)%nat then sum_block a
  else
    match fuel with
    | O => nan
    | S k =>
      let n2 := (n / 2)%nat in
      let n2 := (n2 - n2 mod 8)%nat in
      pairwise_sum k (firstn n2 a) + pairwise_sum k (skipn n2 a)
    end.

(** [np.sum] of a float64 array: the identity [0.0] plus the pairwise sum.
    Below eight numbers this is the sum from left to right. *)
Definition np_sum (a : list float) : float :=
  0 + pairwise_sum (List.length a) a.

(** [calculate_weight_trend(weights, half_life=7)]. *)
Definition calculate_weight_trend (m : mathlib) (weights : list float)
    (half_life : Z) : float :=
  let days := List.length weights in
  let decay_weights :=
    map (fun i => np_exp m (of_Z (- Z.of_nat i) / of_Z half_life))
        (seq 0 days) in
  let total := np_sum decay_weights in
  let decay_weights := map (fun d => d / total) decay_weights in
  np_sum (map (fun p => fst p * snd p) (combine weights decay_weights)).

Definition pal_dict : list (string * float) :=
  [ ("sedentary", 1.2);
    ("lightly active", 1.375);
    ("moderately active", 1.55);
    ("very active", 1.725);
    ("extremely active", 1.9) ]%string.

Definition losing_message (avg_weight_change : float) : string :=
  "You are losing weight at " ++ format_2f avg_weight_change ++ " lbs/week."
   ++ "Consider increasing calories if you don't want to lose weight this quickly.".

Definition gaining_message (avg_weight_change : float) : string :=
  "You are gaining weight at " ++ format_2f avg_weight_change ++ " lbs/week."
   ++ "Consider reducing calories if you don't want to gain weight this quickly.".

(** Lines 231 to 236; the two powers are taken in this order. *)
Definition bmr_of (m : mathlib) (w0 : float) (sex : string) (age height : Z)
  : exn + power :=
  p <- float_pow m (w0 * 0.453592) 0.55 ;;
  q <- float_pow m (of_Z height * 2.54) (of_Z 2) ;;
  match p, q with
  | real p, real q =>
    inr (real
           (129.6 * p
            + 0.011 * q
            - (if (age <=? 60)%Z then 1.96 * of_Z age
               else 4.9 * of_Z (age - 60))
            - 213.8 * of_Z (if String.eqb (lower sex) "male" then 0 else 1)))
  | _, _ => inr complex
  end.

(** [bmr * pal], line 250. *)
Definition scale (bmr : power) (pal : float) : power :=
  match bmr with
  | real b => real (b * pal)
  | complex => complex
  end.

(** Line 256. *)
Definition avg_weight_change (m : mathlib) (weights : list float) : float :=
  (calculate_weight_trend m weights 7 - nth 0 weights 0)
  / int_true_div (Z.of_nat (List.length weights)) 7.

(** Lines 259 to 261. *)
Definition maintenance_calories (m : mathlib) (weights : list float)
    (calories : list Z) : float :=
  let avg_calories :=
    int_true_div (fold_left Z.add calories 0%Z)
                 (Z.of_nat (List.length calories)) in
  let energy_balance := avg_weight_change m weights * of_Z 3500 in
  avg_calories - energy_balance.

(** The branch on the weekly rate, lines 268 to 287. *)
Definition adjust (delta avg_weight_change : float) (c0 : Z)
    (maintenance_calories gain_calories lose_calories : float)
  : string * num * float * float :=
  if (- delta <=? avg_weight_change) && (avg_weight_change <=? delta) then
    let maintenance_calories := PyInt c0 in
    (maintaining_message,
     maintenance_calories,
     to_float maintenance_calories + (0.5 * of_Z 3500) / of_Z 7,
     to_float maintenance_calories - (1.0 * of_Z 3500) / of_Z 7)
  else if avg_weight_change <? - delta then
    (losing_message avg_weight_change,
     PyFloat maintenance_calories, gain_calories, lose_calories)
  else if delta <? avg_weight_change then
    (gaining_message avg_weight_change,
     PyFloat maintenance_calories, gain_calories, lose_calories)
  else
    (EmptyString, PyFloat maintenance_calories, gain_calories, lose_calories).

Definition rapid_change (avg_weight_change : float) : string :=
  if avg_weight_change <? -1.5 then losing_warning
  else if 0.75 <? avg_weight_change then gaining_warning
  else EmptyString.

(** The dict of the [return] statement; its four [round] calls run in the
    order of the keys. *)
Definition result (maintenance_bmr : power) (maintenance_calories : num)
    (gain_calories lose_calories : float)
    (recommendation rapid_change_warning : string) : exn + caloric_needs :=
  match maintenance_bmr with
  | complex => inl (TypeError "type complex doesn't define __round__ method")
  | real maintenance_bmr =>
    b <- py_round maintenance_bmr ;;
    mc <- round_num maintenance_calories ;;
    g <- py_round gain_calories ;;
    l <- py_round lose_calories ;;
    inr {| BMR := b; Maintenance := mc; Gain := g; Lose := l;
           Recommendation := recommendation;
           Warning := rapid_change_warning |}
  end.

(** [calculate_caloric_needs] after its three SELECTs. *)
Definition calculate_caloric_needs (m : mathlib)
    (weights_data : list (float * string)) (calories_data : list (Z * string))
    (user_data : option user_row) : exn + caloric_needs :=
  if negb (List.length weights_data =? List.length calories_data)%nat then
    inl (ValueError "Weights and calories lists must have the same length.")
  else
    let weights := map fst weights_data in
    let calories := map fst calories_data in
    match weights, calories with
    | [], _ | _, [] => inl (ValueError "No data found for the user.")
    | w0 :: _, c0 :: _ =>
      match user_data with
      | None => inl (ValueError "User data not found.")
      | Some (sex, age, height, activity_level) =>
        bmr <- bmr_of m w0 sex age height ;;
        match dict_get pal_dict activity_level with
        | None => inl (ValueError "Invalid activity level.")
        | Some pal =>
          if pal =? 0 then inl (ValueError "Invalid activity level.")
          else
            let maintenance_bmr := scale bmr pal in
            let delta := 0.1 in
            let rate := avg_weight_change m weights in
            let maintenance := maintenance_calories m weights calories in
            let gain_calories := maintenance + (0.5 * of_Z 3500) / of_Z 7 in
            let lose_calories := maintenance - (1.0 * of_Z 3500) / of_Z 7 in
            let '(recommendation, maintenance, gain_calories, lose_calories) :=
              adjust delta rate c0 maintenance gain_calories lose_calories in
            result maintenance_bmr maintenance gain_calories lose_calories
                   recommendation (rapid_change rate)
        end
      end
    end.

(** The three values of a call before the final rounding, and its
    recommendation. *)
Definition targets (m : mathlib) (weights : list float) (calories : list Z)
  : string * num * float * float :=
  let maintenance := maintenance_calories m weights calories in
  adjust 0.1 (avg_weight_change m weights) (nth 0 calories 0%Z) maintenance
         (maintenance + (0.5 * of_Z 3500) / of_Z 7)
         (maintenance - (1.0 * of_Z 3500) / of_Z 7).

Definition recommendation_value (m : mathlib) (weights : list float)
    (calories : list Z) : string :=
  fst (fst (fst (targets m weights calories))).

Definition maintenance_value (m : mathlib) (weights : list float)
    (calories : list Z) : num :=
  snd (fst (fst (targets m weights calories))).

Definition gain_value (m : mathlib) (weights : list float)
    (calories : list Z) : float :=
  snd (fst (targets m weights calories)).

Definition lose_value (m : mathlib) (weights : list float)
    (calories : list Z) : float :=
  snd (targets m weights calories).

(** The binary64 sum [x + 250.0], respectively the difference [x - 500.0],
    is the exact one. *)
Definition gain_exact (x : num) : Prop :=
  (to_Q (to_float x + 250) == value x + inject_Z 250)%Q.

Definition lose_exact (x : num) : Prop :=
  (to_Q (to_float x - 500) == value x + inject_Z (-500))%Q.

(** A [mathlib] given by a table: [np.exp] and [pow] at the listed
    arguments, NaN elsewhere. *)
Definition lookup {K : Type} (same : K -> K -> bool) (table : list (K * float))
    (k : K) : float :=
  match find (fun p => same (fst p) k) table with
  | Some p => snd p
  | None => nan
  end.

Definition tabulated (exps : list (float * float))
    (pows : list (float * float * float)) : mathlib :=
  {| np_exp := lookup PrimFloat.eqb exps;
     libm_pow := fun x y =>
       lookup (fun a b => (fst a =? fst b) && (snd a =? snd b)) pows (x, y) |}.

End B64.

(** [np.exp] and [pow] at the arguments the sample runs below reach, with
    the values the C library of a Linux x86-64 system returns:
    [exp(0.0) = 1.0], [exp(-1/7)] correctly rounded, the 0.55 powers of
    [150.0 * 0.453592] and [140.7 * 0.453592], and the square of
    [70 * 2.54]. *)
Definition sample_math : B64.mathlib :=
  B64.tabulated
    [ (0, 1); (-0x1.2492492492492p-3, 0x1.bbd76b8a1ab98p-1) ]%float
    [ (0x1.1027bb2fec56dp+6, 0.55, 0x1.45f61c493097dp+3);
      (0x1.fe902af06e927p+5, 0.55, 0x1.3aafaaa00d9f2p+3);
      (0x1.639999999999ap+7, 2, 0x1.edf35c28f5c2ap+14) ]%float.

(** The same with [exp(-1/7)] rounded the other way: the real number lies
    between the two floats. *)
Definition sample_math_up : B64.mathlib :=
  B64.tabulated
    [ (0, 1); (-0x1.2492492492492p-3, 0x1.bbd76b8a1ab99p-1) ]%float
    [ (0x1.1027bb2fec56dp+6, 0.55, 0x1.45f61c493097dp+3);
      (0x1.fe902af06e927p+5, 0.55, 0x1.3aafaaa00d9f2p+3);
      (0x1.639999999999ap+7, 2, 0x1.edf35c28f5c2ap+14) ]%float.

(** Two days whose default maintenance figure sits just below a tie. *)
Definition near_tie_weights : list (float * string) :=
  [ (140.7%float, sample_day); (140.54696503444436%float, "2025-01-01") ].

Definition near_tie_calories : list (Z * string) :=
  [ (1113%Z, sample_day); (1113%Z, "2025-01-01") ].

(** ** Facts about the Python primitives *)

Section PyFacts.

Lemma Rleb_true (x y : R) : Rleb x y = true <-> x <= y.
Proof. unfold Rleb; destruct (Rle_dec x y); split; intros; try easy. Qed.

Lemma Rleb_false (x y : R) : Rleb x y = false <-> y < x.
Proof.
  unfold Rleb; destruct (Rle_dec x y); split; intros; try easy; lra.
Qed.

Lemma Rltb_true (x y : R) : Rltb x y = true <-> x < y.
Proof. unfold Rltb; destruct (Rlt_dec x y); split; intros; try easy. Qed.

Lemma Rltb_false (x y : R) : Rltb x y = false <-> y <= x.
Proof.
  unfold Rltb; destruct (Rlt_dec x y); split; intros; try easy; lra.
Qed.

(** [round] of a whole number is that number. *)
Lemma py_round_IZR (z : Z) : py_round (IZR z) = z.
Proof.
  unfold py_round. rewrite ZfloorZ.
  replace (IZR z - IZR z) with 0 by lra.
  destruct (Rltb 0 (1 / 2)) eqn:E; [reflexivity|].
  apply Rltb_false in E. lra.
Qed.



Lemma np_sum_map_div (t : R) (l : list R) :
  np_sum (map (fun d => d / t) l) = np_sum l / t.
Proof.
  induction l as [|d l IH]; simpl.
  - unfold Rdiv. lra.
  - rewrite IH. unfold Rdiv. lra.
Qed.

Lemma np_sum_pos (l : list R) :
  l <> [] -> Forall (fun d => 0 < d) l -> 0 < np_sum l.
Proof.
  intros Hne Hall. induction Hall as [|d l Hd Hall IH]; [easy|].
  simpl. destruct l as [|d' l'].
  - simpl. lra.
  - assert (0 < np_sum (d' :: l')) by (apply IH; discriminate). lra.
Qed.

(** A combination with non-negative coefficients of values of [[m, M]]
    stays between [m] and [M] times the sum of the coefficients. *)
Lemma np_sum_mul_bounds (m M : R) (ws : list R) :
  Forall (fun w => m <= w <= M) ws ->
  forall ds, List.length ds = List.length ws ->
             Forall (fun d => 0 <= d) ds ->
             m * np_sum ds <= np_sum (np_mul ws ds) <= M * np_sum ds.
Proof.
  induction 1 as [|w ws Hw Hws IH]; intros [|d ds] Hlen Hds;
    try discriminate; simpl.
  - lra.
  - inversion Hds as [|? ? Hd Hds']; subst.
    injection Hlen as Hlen.
    specialize (IH ds Hlen Hds'). unfold np_mul in IH. nra.
Qed.

End PyFacts.

(** Settles every comparison of the goal from the real-arithmetic facts in
    the context. *)
Ltac decide_cmp :=
  repeat match goal with
         | |- context [Rleb ?x ?y] =>
           first [ replace (Rleb x y) with true
                     by (symmetry; apply Rleb_true; lra)
                 | replace (Rleb x y) with false
                     by (symmetry; apply Rleb_false; lra) ]
         | |- context [Rltb ?x ?y] =>
           first [ replace (Rltb x y) with true
                     by (symmetry; apply Rltb_true; lra)
                 | replace (Rltb x y) with false
                     by (symmetry; apply Rltb_false; lra) ]
         end.

(** ** The primitives on sample values *)

Lemma py_round_below (z : Z) (x : R) :
  IZR z <= x < IZR z + 1 / 2 -> py_round x = z.
Proof.
  intros Hx. unfold py_round.
  rewrite (Zfloor_eq z x) by lra. decide_cmp. reflexivity.
Qed.

Lemma py_round_above (z : Z) (x : R) :
  IZR z + 1 / 2 < x < IZR z + 1 -> py_round x = (z + 1)%Z.
Proof.
  intros Hx. unfold py_round.
  rewrite (Zfloor_eq z x) by lra. decide_cmp. reflexivity.
Qed.

Lemma py_round_tie (z : Z) :
  py_round (IZR z + 1 / 2) = if Z.even z then z else (z + 1)%Z.
Proof.
  unfold py_round.
  rewrite (Zfloor_eq z (IZR z + 1 / 2)) by lra. decide_cmp. reflexivity.
Qed.

Example py_round_half : py_round 0.5 = 0%Z.
Proof. replace 0.5 with (IZR 0 + 1 / 2) by lra. now rewrite py_round_tie. Qed.

Example py_round_three_halves : py_round 1.5 = 2%Z.
Proof. replace 1.5 with (IZR 1 + 1 / 2) by lra. now rewrite py_round_tie. Qed.

Example py_round_five_halves : py_round 2.5 = 2%Z.
Proof. replace 2.5 with (IZR 2 + 1 / 2) by lra. now rewrite py_round_tie. Qed.

Example py_round_negative : py_round (-2.7) = (-3)%Z.
Proof. apply (py_round_below (-3)). lra. Qed.

Example lower_male : lower "Male" = "male".
Proof. reflexivity. Qed.

Example format_2f_negative_half : format_2f (-0.5) = "-0.50".
Proof.
  unfold format_2f. rewrite Rabs_left by lra.
  replace (- -0.5 * 100) with (IZR 50) by lra. rewrite py_round_IZR.
  decide_cmp. reflexivity.
Qed.

Example format_2f_tie : format_2f 0.125 = "0.12".
Proof.
  unfold format_2f. rewrite Rabs_right by lra.
  replace (0.125 * 100) with (IZR 12 + 1 / 2) by lra. rewrite py_round_tie.
  decide_cmp. reflexivity.
Qed.

(** The losing message prints the signed rate. *)
Example losing_message_half :
  losing_message (-0.5)
  = "You are losing weight at -0.50 lbs/week.Consider increasing calories if you don't want to lose weight this quickly.".
Proof. unfold losing_message. now rewrite format_2f_negative_half. Qed.

Example pal_dict_unknown : dict_get pal_dict "super_active" = None.
Proof. reflexivity. Qed.

Example pal_dict_underscore : dict_get pal_dict "lightly_active" = None.
Proof. reflexivity. Qed.


(** ** Facts about the specification's sums *)

Section SumFacts.

Import Spec.

Lemma sum_upto_ext (f g : nat -> R) (n : nat) :
  (forall i, (i < n)%nat -> f i = g i) -> sum_upto f n = sum_upto g n.
Proof.
  induction n as [|n IH]; intros Hfg; simpl; [reflexivity|].
  rewrite IH, Hfg; auto.
Qed.

Lemma sum_upto_shift (f : nat -> R) (n : nat) :
  sum_upto f (S n) = f O + sum_upto (fun i => f (S i)) n.
Proof.
  induction n as [|n IH].
  - simpl. lra.
  - change (sum_upto f (S (S n))) with (sum_upto f (S n) + f (S n)).
    rewrite IH. simpl. lra.
Qed.

Lemma np_sum_map_seq (f : nat -> R) (n a : nat) :
  np_sum (map f (seq a n)) = sum_upto (fun i => f (a + i)%nat) n.
Proof.
  revert a. induction n as [|n IH]; intros a; [reflexivity|].
  rewrite sum_upto_shift. cbn [seq map np_sum fold_right].
  fold (np_sum (map f (seq (S a) n))). rewrite IH, Nat.add_0_r.
  f_equal. apply sum_upto_ext. intros i _. f_equal. lia.
Qed.

Lemma np_sum_mul_seq (g : nat -> R) (ws : list R) (a : nat) :
  np_sum (np_mul ws (map g (seq a (List.length ws))))
  = sum_upto (fun i => nth i ws 0 * g (a + i)%nat) (List.length ws).
Proof.
  revert a. induction ws as [|w ws IH]; intros a; [reflexivity|].
  cbn [List.length]. rewrite sum_upto_shift.
  cbn [seq map combine np_mul np_sum fold_right fst snd nth].
  fold (np_mul ws (map g (seq (S a) (List.length ws)))).
  fold (np_sum (np_mul ws (map g (seq (S a) (List.length ws))))).
  rewrite IH, Nat.add_0_r. f_equal.
  apply sum_upto_ext. intros i _. f_equal. f_equal. lia.
Qed.

Lemma sum_upto_nth (xs : list R) :
  sum_upto (fun i => nth i xs 0) (List.length xs) = np_sum xs.
Proof.
  induction xs as [|x xs IH]; [reflexivity|].
  cbn [List.length]. rewrite sum_upto_shift. simpl. rewrite IH. reflexivity.
Qed.

Lemma list_min_max_bounds (w : R) (ws : list R) :
  Forall (fun x => list_min w ws <= x <= list_max w ws) (w :: ws).
Proof.
  induction ws as [|v ws IH].
  - constructor; [simpl; lra | constructor].
  - inversion IH as [|? ? Hw Hws]; subst.
    assert (Hmin : list_min w (v :: ws) <= list_min w ws)
      by (simpl; apply Rmin_r).
    assert (Hmax : list_max w ws <= list_max w (v :: ws))
      by (simpl; apply Rmax_r).
    constructor; [lra|].
    constructor.
    + split; simpl; [apply Rmin_l | apply Rmax_l].
    + eapply Forall_impl; [|exact Hws]. simpl. intros x Hx.
      fold (list_min w ws). fold (list_max w ws). simpl in Hmin, Hmax. 
      fold (list_min w ws) in Hmin. fold (list_max w ws) in Hmax. lra.
Qed.

End SumFacts.

(** ** The decay weights and the trend *)

Section TrendFacts.

Lemma raw_decay_length (days : nat) (h : Z) :
  List.length (raw_decay days h) = days.
Proof. unfold raw_decay, arange. now rewrite !length_map, length_seq. Qed.

Lemma raw_decay_pos (days : nat) (h : Z) :
  Forall (fun d => 0 < d) (raw_decay days h).
Proof.
  unfold raw_decay. apply Forall_forall. intros d Hd.
  apply in_map_iff in Hd as [i [<- _]]. apply exp_pos.
Qed.

Lemma raw_decay_total_pos (n : nat) (h : Z) :
  0 < np_sum (raw_decay (S n) h).
Proof.
  apply np_sum_pos; [|apply raw_decay_pos].
  intros E. apply (f_equal (@List.length R)) in E.
  rewrite raw_decay_length in E. discriminate.
Qed.

Lemma raw_decay_total (n : nat) (h : Z) :
  np_sum (raw_decay n h) = Spec.sum_upto (fun j => exp (- INR j / IZR h)) n.
Proof.
  unfold raw_decay, arange. rewrite map_map.
  rewrite (np_sum_map_seq (fun j => exp (- INR j / IZR h)) n 0).
  reflexivity.
Qed.

(** The array the source builds holds the specification's [d_i]. *)
Lemma decay_weights_spec (n : nat) (h : Z) :
  decay_weights n h = map (Spec.decay (IZR h) n) (seq 0 n).
Proof.
  unfold decay_weights. rewrite raw_decay_total.
  unfold raw_decay, arange. rewrite !map_map.
  apply map_ext. intros i. reflexivity.
Qed.

Lemma decay_weights_length (n : nat) (h : Z) :
  List.length (decay_weights n h) = n.
Proof. unfold decay_weights. now rewrite length_map, raw_decay_length. Qed.

Lemma decay_weights_nonneg (n : nat) (h : Z) :
  Forall (fun d => 0 <= d) (decay_weights n h).
Proof.
  destruct n as [|n]; [constructor|].
  unfold decay_weights. apply Forall_forall. intros d Hd.
  apply in_map_iff in Hd as [e [<- He]].
  pose proof (raw_decay_total_pos n h) as Ht.
  pose proof (raw_decay_pos (S n) h) as Hall.
  rewrite Forall_forall in Hall. specialize (Hall e He).
  apply Rlt_le, Rdiv_lt_0_compat; assumption.
Qed.

Lemma decay_weights_sum (n : nat) (h : Z) :
  np_sum (decay_weights (S n) h) = 1.
Proof.
  unfold decay_weights. rewrite np_sum_map_div.
  pose proof (raw_decay_total_pos n h). field. lra.
Qed.

Lemma weighted_sum_spec (weights : list R) (h : Z) :
  np_sum (np_mul weights (decay_weights (List.length weights) h))
  = Spec.trend weights (IZR h).
Proof.
  rewrite decay_weights_spec, np_sum_mul_seq. reflexivity.
Qed.

(** With a non-zero half-life the estimator returns the weighted sum. *)
Lemma calculate_weight_trend_value (weights : list R) (h : Z) :
  h <> 0%Z ->
  calculate_weight_trend weights h = np_value (Spec.trend weights (IZR h)).
Proof.
  intros Hh. unfold calculate_weight_trend.
  destruct (Z.eqb_spec h 0) as [E|_]; [contradiction|].
  now rewrite weighted_sum_spec.
Qed.

Lemma trend_bounds (w : R) (ws : list R) (h : Z) :
  Spec.list_min w ws
  <= np_sum (np_mul (w :: ws) (decay_weights (List.length (w :: ws)) h))
  <= Spec.list_max w ws.
Proof.
  pose proof (np_sum_mul_bounds _ _ _ (list_min_max_bounds w ws)
                (decay_weights (List.length (w :: ws)) h)
                (decay_weights_length _ h) (decay_weights_nonneg _ h)) as H.
  cbn [List.length] in *. rewrite decay_weights_sum in H. lra.
Qed.

End TrendFacts.

(** ** Facts about the calculator *)

Section CalculatorFacts.

Lemma single_sample_trend (w : R) (h : Z) :
  h <> 0%Z -> calculate_weight_trend [w] h = np_value w.
Proof.
  intros Hh. unfold calculate_weight_trend.
  destruct (Z.eqb_spec h 0) as [E|_]; [contradiction|].
  f_equal. pose proof (trend_bounds w [] h) as H. simpl in H.
  unfold np_mul, decay_weights in *. simpl in *. lra.
Qed.

Lemma activity_factor_nonzero (a : Spec.ActivityLevel) :
  Spec.activity_factor a <> 0.
Proof. destruct a; simpl; lra. Qed.

Lemma pal_dict_key (a : Spec.ActivityLevel) :
  dict_get pal_dict (activity_key a) = Some (Spec.activity_factor a).
Proof. destruct a; reflexivity. Qed.

Lemma pal_dict_some (activity_level : string) (pal : R) :
  dict_get pal_dict activity_level = Some pal ->
  exists a, activity_level = activity_key a /\ pal = Spec.activity_factor a.
Proof.
  unfold pal_dict. cbn [dict_get].
  repeat match goal with
         | |- context [String.eqb ?k activity_level] =>
           destruct (String.eqb_spec k activity_level) as [E|_];
             [subst activity_level; intros H;
              apply (f_equal (fun o => match o with Some v => v | None => 0 end))
                in H; subst pal;
              first [ now exists Spec.sedentary
                    | now exists Spec.lightly_active
                    | now exists Spec.moderately_active
                    | now exists Spec.very_active
                    | now exists Spec.extremely_active ] |]
         end.
  discriminate.
Qed.

Lemma pal_dict_none (activity_level : string) :
  dict_get pal_dict activity_level = None <-> ~ recognized activity_level.
Proof.
  split.
  - intros Hnone [a ->]. rewrite pal_dict_key in Hnone. discriminate.
  - intros Hnot. destruct (dict_get pal_dict activity_level) as [pal|] eqn:E;
      [|reflexivity].
    apply pal_dict_some in E as [a [-> _]]. exfalso. apply Hnot. now exists a.
Qed.

Lemma float_pow_nonneg (x y : R) :
  0 <= x -> float_pow x y = Some (Spec.real_pow x y).
Proof.
  intros Hx. unfold float_pow, Spec.real_pow.
  destruct (Rltb x 0) eqn:E; [apply Rltb_true in E; lra|].
  destruct (Req_dec_T x 0); reflexivity.
Qed.

Lemma float_pow_neg (x y : R) : x < 0 -> float_pow x y = None.
Proof.
  intros Hx. unfold float_pow.
  destruct (Rltb x 0) eqn:E; [reflexivity|apply Rltb_false in E; lra].
Qed.

Lemma bmr_of_some (w0 : R) (sex : string) (age height : Z) :
  0 <= w0 -> exists b, bmr_of w0 sex age height = Some b.
Proof.
  intros Hw. unfold bmr_of. rewrite float_pow_nonneg by lra.
  eexists. reflexivity.
Qed.


(** What the function returns once the three validations pass. *)
Lemma calculate_caloric_needs_run
      (weights_data calories_data : list (R * string))
      (sex : string) (age height : Z) (a : Spec.ActivityLevel) (b : R) :
  List.length weights_data = List.length calories_data ->
  weights_data <> [] ->
  bmr_of (first_weight weights_data) sex age height = Some b ->
  calculate_caloric_needs weights_data calories_data
                          (Some (sex, age, height, activity_key a))
  = inr {| BMR := py_round (b * Spec.activity_factor a);
           Maintenance :=
             py_round (snd (fst (fst (adjusted weights_data calories_data))));
           Gain := py_round (snd (fst (adjusted weights_data calories_data)));
           Lose := py_round (snd (adjusted weights_data calories_data));
           Recommendation :=
             fst (fst (fst (adjusted weights_data calories_data)));
           Warning := rapid_change (rate_of weights_data) |}.
Proof.
  intros Hlen Hne Hb. unfold calculate_caloric_needs.
  rewrite Hlen, Nat.eqb_refl. cbn [negb].
  destruct weights_data as [|[w0 d] wrest]; [contradiction|].
  destruct calories_data as [|[c0 dc] crest]; [discriminate|].
  cbn [map fst]. rewrite pal_dict_key.
  destruct (Req_dec_T (Spec.activity_factor a) 0) as [E|_];
    [now apply activity_factor_nonzero in E|].
  rewrite calculate_weight_trend_value by discriminate.
  unfold first_weight in Hb. cbn [map fst nth] in Hb. rewrite Hb.
  cbn [option_map].
  unfold adjusted, maintenance_of, rate_of, Spec.maintenance_calories,
    Spec.avg_weight_change_per_week, Spec.average.
  rewrite sum_upto_nth. cbn [map fst nth].
  destruct (adjust _ _ _ _ _ _) as [[[r m] g] l]. reflexivity.
Qed.

End CalculatorFacts.

Section BranchFacts.



Lemma adjust_maintaining (r c0 m g l : R) :
  -0.1 <= r <= 0.1 ->
  adjust 0.1 r c0 m g l
  = (maintaining_message, IZR (py_round c0),
     IZR (py_round c0) + (0.5 * 3500) / 7,
     IZR (py_round c0) - (1.0 * 3500) / 7).
Proof.
  intros [Hlo Hhi]. unfold adjust. decide_cmp. reflexivity.
Qed.

Lemma adjust_losing (r c0 m g l : R) :
  r < -0.1 -> adjust 0.1 r c0 m g l = (losing_message r, m, g, l).
Proof.
  intros Hr. unfold adjust. decide_cmp. reflexivity.
Qed.

Lemma adjust_gaining (r c0 m g l : R) :
  0.1 < r -> adjust 0.1 r c0 m g l = (gaining_message r, m, g, l).
Proof.
  intros Hr. unfold adjust. decide_cmp. reflexivity.
Qed.

(** The three comparisons of the chain leave no real number out. *)
Lemma band_cases (r : R) : -0.1 <= r <= 0.1 \/ r < -0.1 \/ 0.1 < r.
Proof.
  destruct (Rle_dec (-0.1) r); destruct (Rle_dec r 0.1); lra.
Qed.

Lemma maintaining_message_nonempty : maintaining_message <> EmptyString.
Proof. discriminate. Qed.

Lemma losing_message_nonempty (r : R) : losing_message r <> EmptyString.
Proof. unfold losing_message. cbn [String.append]. discriminate. Qed.

Lemma gaining_message_nonempty (r : R) : gaining_message r <> EmptyString.
Proof. unfold gaining_message. cbn [String.append]. discriminate. Qed.






(** A failed validation, a complex BMR, or a result: what a call whose
    rows and profile pass the three checks can do. *)
Lemma calculate_caloric_needs_complex
      (weights_data calories_data : list (R * string))
      (sex : string) (age height : Z) (a : Spec.ActivityLevel) :
  List.length weights_data = List.length calories_data ->
  weights_data <> [] ->
  bmr_of (first_weight weights_data) sex age height = None ->
  calculate_caloric_needs weights_data calories_data
                          (Some (sex, age, height, activity_key a))
  = inl (TypeError "type complex doesn't define __round__ method").
Proof.
  intros Hlen Hne Hb. unfold calculate_caloric_needs.
  rewrite Hlen, Nat.eqb_refl. cbn [negb].
  destruct weights_data as [|[w0 d] wrest]; [contradiction|].
  destruct calories_data as [|[c0 dc] crest]; [discriminate|].
  cbn [map fst]. rewrite pal_dict_key.
  destruct (Req_dec_T (Spec.activity_factor a) 0) as [E|_];
    [now apply activity_factor_nonzero in E|].
  rewrite calculate_weight_trend_value by discriminate.
  unfold first_weight in Hb. cbn [map fst nth] in Hb. rewrite Hb.
  cbn [option_map].
  destruct (adjust _ _ _ _ _ _) as [[[r m] g] l]. reflexivity.
Qed.

(** A successful call passed every check. *)
Lemma calculate_caloric_needs_inr
      (weights_data calories_data : list (R * string))
      (user_data : option user_row) (res : caloric_needs) :
  calculate_caloric_needs weights_data calories_data user_data = inr res ->
  List.length weights_data = List.length calories_data
  /\ weights_data <> []
  /\ exists sex age height a b,
      user_data = Some (sex, age, height, activity_key a)
      /\ bmr_of (first_weight weights_data) sex age height = Some b.
Proof.
  unfold calculate_caloric_needs.
  destruct (Nat.eqb_spec (List.length weights_data) (List.length calories_data))
    as [Hlen|_]; [|discriminate].
  cbn [negb].
  destruct weights_data as [|[w0 d] wrest]; [discriminate|].
  destruct calories_data as [|[c0 dc] crest]; [discriminate|].
  cbn [map fst].
  destruct user_data as [[[[sex age] height] level]|]; [|discriminate].
  destruct (dict_get pal_dict level) as [pal|] eqn:Epal; [|discriminate].
  apply pal_dict_some in Epal as [a [-> ->]].
  destruct (Req_dec_T (Spec.activity_factor a) 0); [discriminate|].
  rewrite calculate_weight_trend_value by discriminate.
  destruct (adjust _ _ _ _ _ _) as [[[r m] g] l].
  destruct (bmr_of w0 sex age height) as [b|] eqn:Eb; [|discriminate].
  intros _. repeat split; [assumption|discriminate|].
  exists sex, age, height, a, b. split; [reflexivity|exact Eb].
Qed.

End BranchFacts.

(** ** Facts about the binary64 model *)

Section Binary64Facts.

Import B64.
Local Open Scope float_scope.

Lemma Qfloor_unique (q : Q) (n : Z) :
  (inject_Z n <= q)%Q -> (q < inject_Z (n + 1))%Q -> Qfloor q = n.
Proof.
  intros Hlo Hhi.
  assert (H1 : (n <= Qfloor q)%Z).
  { rewrite <- (Qfloor_Z n). now apply Qfloor_resp_le. }
  assert (H2 : (Qfloor q < n + 1)%Z).
  { apply Z.lt_nge. intros Hge. rewrite Zle_Qle in Hge.
    pose proof (Qfloor_le q) as Hf.
    apply (Qlt_irrefl q).
    eapply Qlt_le_trans; [exact Hhi|]. eapply Qle_trans; eassumption. }
  lia.
Qed.

Lemma Qfloor_add_Z (q : Q) (k : Z) :
  Qfloor (q + inject_Z k) = (Qfloor q + k)%Z.
Proof.
  apply Qfloor_unique.
  - rewrite inject_Z_plus. apply Qplus_le_l. apply Qfloor_le.
  - replace (Qfloor q + k + 1)%Z with ((Qfloor q + 1) + k)%Z by lia.
    rewrite inject_Z_plus. apply Qplus_lt_l. apply Qlt_floor.
Qed.

Lemma round_half_even_comp (q q' : Q) :
  (q == q')%Q -> round_half_even q = round_half_even q'.
Proof.
  intros H. unfold round_half_even.
  assert (Hf : Qfloor q = Qfloor q') by now rewrite H.
  rewrite Hf.
  assert (Hc : Qcompare (q - inject_Z (Qfloor q')) (1 # 2)
               = Qcompare (q' - inject_Z (Qfloor q')) (1 # 2))
    by now rewrite H.
  now rewrite Hc.
Qed.

Lemma round_half_even_Z (z : Z) : round_half_even (inject_Z z) = z.
Proof.
  unfold round_half_even. rewrite Qfloor_Z.
  assert (H : Qcompare (inject_Z z - inject_Z z) (1 # 2) = Lt).
  { rewrite <- Qlt_alt. unfold Qlt, Qminus, Qplus, Qopp, inject_Z. simpl. lia. }
  cbv zeta. now rewrite H.
Qed.

Lemma round_half_even_add_even (q : Q) (k : Z) :
  Z.even k = true ->
  round_half_even (q + inject_Z k) = (round_half_even q + k)%Z.
Proof.
  intros Hk. unfold round_half_even. rewrite Qfloor_add_Z.
  assert (Hc : Qcompare (q + inject_Z k - inject_Z (Qfloor q + k)) (1 # 2)
               = Qcompare (q - inject_Z (Qfloor q)) (1 # 2)).
  { apply Qcompare_comp; [|reflexivity]. rewrite inject_Z_plus. ring. }
  rewrite Hc, Z.even_add, Hk.
  destruct (Qcompare (q - inject_Z (Qfloor q)) (1 # 2)); try lia.
  destruct (Z.even (Qfloor q)); cbn [Bool.eqb]; lia.
Qed.

Lemma py_round_finite (x : float) :
  finite x = true -> py_round x = inr (round_half_even (to_Q x)).
Proof.
  unfold finite, py_round. destruct (Prim2SF x); try discriminate; reflexivity.
Qed.

Lemma py_round_inr (x : float) (z : Z) :
  py_round x = inr z -> finite x = true /\ z = round_half_even (to_Q x).
Proof.
  unfold finite, py_round.
  destruct (Prim2SF x); try discriminate; intros [= <-]; split; reflexivity.
Qed.

(** [round] of a float sum that is exact is the rounded term plus the even
    whole number added. *)
Lemma py_round_exact_sum (x : num) (y : float) (k a b : Z) :
  Z.even k = true ->
  round_num x = inr a ->
  py_round y = inr b ->
  (to_Q y == value x + inject_Z k)%Q ->
  b = (a + k)%Z.
Proof.
  intros Hk Ha Hb Hy. apply py_round_inr in Hb as [_ ->].
  rewrite (round_half_even_comp _ _ Hy).
  destruct x as [z|f]; cbn [round_num value] in *.
  - injection Ha as <-. rewrite <- inject_Z_plus. apply round_half_even_Z.
  - apply py_round_inr in Ha as [_ ->]. now apply round_half_even_add_even.
Qed.

Lemma quarter_offset64 : (0.5 * of_Z 3500) / of_Z 7 = 250.
Proof. vm_compute. reflexivity. Qed.

Lemma half_offset64 : (1.0 * of_Z 3500) / of_Z 7 = 500.
Proof. vm_compute. reflexivity. Qed.

Lemma pal_dict64_key (a : Spec.ActivityLevel) :
  exists pal, dict_get B64.pal_dict (activity_key a) = Some pal
              /\ (pal =? 0) = false.
Proof. destruct a; eexists; split; reflexivity. Qed.

Lemma pal_dict64_some (level : string) (pal : float) :
  dict_get B64.pal_dict level = Some pal -> recognized level.
Proof.
  unfold B64.pal_dict. cbn [dict_get]. intros H.
  repeat match type of H with
         | (if String.eqb ?k level then _ else _) = _ =>
           destruct (String.eqb_spec k level) as [E|_]
         end; try discriminate.
  - now exists Spec.sedentary.
  - now exists Spec.lightly_active.
  - now exists Spec.moderately_active.
  - now exists Spec.very_active.
  - now exists Spec.extremely_active.
Qed.

Lemma adjust64_maintaining (rate : float) (c0 : Z) (mc g l : float) :
  (- 0.1 <=? rate) && (rate <=? 0.1) = true ->
  B64.adjust 0.1 rate c0 mc g l
  = (maintaining_message, PyInt c0, of_Z c0 + 250, of_Z c0 - 500).
Proof.
  intros H. unfold B64.adjust.
  change (PrimFloat.opp 0.1) with (-0.1)%float. rewrite H. cbn [to_float].
  now rewrite quarter_offset64, half_offset64.
Qed.

Lemma adjust64_default (rate : float) (c0 : Z) (mc g l : float) :
  (- 0.1 <=? rate) && (rate <=? 0.1) = false ->
  snd (fst (fst (B64.adjust 0.1 rate c0 mc g l))) = PyFloat mc
  /\ snd (fst (B64.adjust 0.1 rate c0 mc g l)) = g
  /\ snd (B64.adjust 0.1 rate c0 mc g l) = l.
Proof.
  intros H. unfold B64.adjust.
  change (PrimFloat.opp 0.1) with (-0.1)%float. rewrite H.
  destruct (rate <? - 0.1); [repeat split|].
  destruct (0.1 <? rate); repeat split.
Qed.

(** In either branch the gain and lose figures are the maintenance figure
    plus 250.0 and minus 500.0. *)
Lemma targets_offsets (m : mathlib) (weights : list float) (calories : list Z) :
  gain_value m weights calories
  = to_float (maintenance_value m weights calories) + 250
  /\ lose_value m weights calories
     = to_float (maintenance_value m weights calories) - 500.
Proof.
  unfold gain_value, lose_value, maintenance_value, targets.
  destruct ((- 0.1 <=? avg_weight_change m weights)
            && (avg_weight_change m weights <=? 0.1)) eqn:E.
  - rewrite adjust64_maintaining by exact E. cbn [fst snd to_float].
    split; reflexivity.
  - destruct (adjust64_default _ (nth 0 calories 0%Z)
                (maintenance_calories m weights calories)
                (maintenance_calories m weights calories
                 + (0.5 * of_Z 3500) / of_Z 7)
                (maintenance_calories m weights calories
                 - (1.0 * of_Z 3500) / of_Z 7) E) as (H1 & H2 & H3).
    rewrite H1, H2, H3. cbn [to_float].
    now rewrite quarter_offset64, half_offset64.
Qed.

Lemma targets_maintaining (m : mathlib) (weights : list float)
      (calories : list Z) :
  (- 0.1 <=? avg_weight_change m weights)
  && (avg_weight_change m weights <=? 0.1) = true ->
  targets m weights calories
  = (maintaining_message, PyInt (nth 0 calories 0%Z),
     of_Z (nth 0 calories 0%Z) + 250, of_Z (nth 0 calories 0%Z) - 500).
Proof. intros Hin. unfold targets. now rewrite adjust64_maintaining. Qed.

Lemma targets_default (m : mathlib) (weights : list float)
      (calories : list Z) :
  (- 0.1 <=? avg_weight_change m weights)
  && (avg_weight_change m weights <=? 0.1) = false ->
  maintenance_value m weights calories
  = PyFloat (maintenance_calories m weights calories)
  /\ gain_value m weights calories
     = maintenance_calories m weights calories + 250
  /\ lose_value m weights calories
     = maintenance_calories m weights calories - 500.
Proof.
  intros Hout. unfold maintenance_value, gain_value, lose_value, targets.
  destruct (adjust64_default _ (nth 0 calories 0%Z)
              (maintenance_calories m weights calories)
              (maintenance_calories m weights calories
               + (0.5 * of_Z 3500) / of_Z 7)
              (maintenance_calories m weights calories
               - (1.0 * of_Z 3500) / of_Z 7) Hout) as (H1 & H2 & H3).
  rewrite H1, H2, H3. now rewrite quarter_offset64, half_offset64.
Qed.

Lemma result_inr (mb : power) (mc : num) (g l : float) (rec warn : string)
      (res : caloric_needs) :
  result mb mc g l rec warn = inr res ->
  exists b, mb = real b
            /\ py_round b = inr (BMR res)
            /\ round_num mc = inr (Maintenance res)
            /\ py_round g = inr (Gain res)
            /\ py_round l = inr (Lose res)
            /\ Recommendation res = rec
            /\ Warning res = warn.
Proof.
  unfold result. destruct mb as [b|]; [|discriminate].
  unfold bind.
  destruct (py_round b) as [|b'] eqn:Eb; [discriminate|].
  destruct (round_num mc) as [|mc'] eqn:Em; [discriminate|].
  destruct (py_round g) as [|g'] eqn:Eg; [discriminate|].
  destruct (py_round l) as [|l'] eqn:El; [discriminate|].
  intros [= <-]. exists b.
  cbn [BMR Maintenance Gain Lose Recommendation Warning].
  repeat split; assumption.
Qed.

Lemma result_returns (b : float) (mc : num) (g l : float) (rec warn : string) :
  finite b = true -> finite (to_float mc) = true ->
  finite g = true -> finite l = true ->
  exists res, result (real b) mc g l rec warn = inr res.
Proof.
  intros Hb Hm Hg Hl. unfold result, bind.
  rewrite (py_round_finite _ Hb), (py_round_finite _ Hg),
    (py_round_finite _ Hl).
  destruct mc as [z|f]; cbn [round_num to_float] in *.
  - eexists. reflexivity.
  - rewrite (py_round_finite _ Hm). eexists. reflexivity.
Qed.

(** What a call computes once its input has passed the checks. *)
Lemma calculate_caloric_needs64_run (m : mathlib)
      (wd : list (float * string)) (cd : list (Z * string))
      (sex : string) (age height : Z) (level : string) (pal : float) :
  List.length wd = List.length cd ->
  wd <> [] ->
  dict_get B64.pal_dict level = Some pal ->
  (pal =? 0) = false ->
  B64.calculate_caloric_needs m wd cd (Some (sex, age, height, level))
  = (bmr <- B64.bmr_of m (nth 0 (map fst wd) 0) sex age height ;;
     result (scale bmr pal)
            (maintenance_value m (map fst wd) (map fst cd))
            (gain_value m (map fst wd) (map fst cd))
            (lose_value m (map fst wd) (map fst cd))
            (recommendation_value m (map fst wd) (map fst cd))
            (B64.rapid_change (avg_weight_change m (map fst wd)))).
Proof.
  intros Hlen Hne Hpal Hnz. unfold B64.calculate_caloric_needs.
  rewrite Hlen, Nat.eqb_refl. cbn [negb].
  destruct wd as [|[w0 d] wrest]; [contradiction|].
  destruct cd as [|[c0 dc] crest]; [discriminate|].
  cbn [map fst nth]. unfold bind.
  destruct (B64.bmr_of m w0 sex age height) as [e|bmr]; [reflexivity|].
  rewrite Hpal, Hnz.
  unfold maintenance_value, gain_value, lose_value, recommendation_value,
    targets.
  cbn [nth].
  destruct (B64.adjust _ _ _ _ _ _) as [[[rec mc] g] l]. reflexivity.
Qed.

Lemma calculate_caloric_needs64_inr (m : mathlib)
      (wd : list (float * string)) (cd : list (Z * string))
      (ud : option user_row) (res : caloric_needs) :
  B64.calculate_caloric_needs m wd cd ud = inr res ->
  List.length wd = List.length cd
  /\ wd <> []
  /\ exists sex age height level pal,
      ud = Some (sex, age, height, level)
      /\ dict_get B64.pal_dict level = Some pal
      /\ (pal =? 0) = false.
Proof.
  unfold B64.calculate_caloric_needs.
  destruct (Nat.eqb_spec (List.length wd) (List.length cd)) as [Hlen|];
    [|discriminate].
  cbn [negb].
  destruct wd as [|[w0 d] wrest]; [discriminate|].
  destruct cd as [|[c0 dc] crest]; [discriminate|].
  cbn [map fst].
  destruct ud as [[[[sex age] height] level]|]; [|discriminate].
  unfold bind.
  destruct (B64.bmr_of m w0 sex age height) as [e|bmr]; [discriminate|].
  destruct (dict_get B64.pal_dict level) as [pal|] eqn:E; [|discriminate].
  destruct (pal =? 0) eqn:Ez; [discriminate|].
  intros _. split; [exact Hlen|]. split; [discriminate|].
  now exists sex, age, height, level, pal.
Qed.

(** The fields of a result, read off the values before rounding. *)
Lemma calculate_caloric_needs64_fields (m : mathlib)
      (wd : list (float * string)) (cd : list (Z * string))
      (ud : option user_row) (res : caloric_needs) :
  B64.calculate_caloric_needs m wd cd ud = inr res ->
  round_num (maintenance_value m (map fst wd) (map fst cd))
  = inr (Maintenance res)
  /\ py_round (gain_value m (map fst wd) (map fst cd)) = inr (Gain res)
  /\ py_round (lose_value m (map fst wd) (map fst cd)) = inr (Lose res)
  /\ Recommendation res = recommendation_value m (map fst wd) (map fst cd)
  /\ Warning res = B64.rapid_change (avg_weight_change m (map fst wd)).
Proof.
  intros Hres.
  destruct (calculate_caloric_needs64_inr _ _ _ _ _ Hres)
    as (Hlen & Hne & sex & age & height & level & pal & -> & Hpal & Hnz).
  rewrite (calculate_caloric_needs64_run _ _ _ _ _ _ _ _ Hlen Hne Hpal Hnz)
    in Hres.
  unfold bind in Hres.
  destruct (B64.bmr_of m _ sex age height) as [e|bmr]; [discriminate|].
  apply result_inr in Hres.
  destruct Hres as (b & _ & _ & Hm & Hg & Hl & Hr & Hw).
  repeat split; assumption.
Qed.

Lemma calculate_caloric_needs64_returns (m : mathlib)
      (wd : list (float * string)) (cd : list (Z * string))
      (sex : string) (age height : Z) (a : Spec.ActivityLevel)
      (b pal : float) :
  List.length wd = List.length cd ->
  wd <> [] ->
  dict_get B64.pal_dict (activity_key a) = Some pal ->
  B64.bmr_of m (nth 0 (map fst wd) 0) sex age height = inr (real b) ->
  finite (b * pal) = true ->
  finite (to_float (maintenance_value m (map fst wd) (map fst cd))) = true ->
  finite (gain_value m (map fst wd) (map fst cd)) = true ->
  finite (lose_value m (map fst wd) (map fst cd)) = true ->
  exists res,
    B64.calculate_caloric_needs m wd cd
                                (Some (sex, age, height, activity_key a))
    = inr res.
Proof.
  intros Hlen Hne Hpal Hb Hfb Hfm Hfg Hfl.
  destruct (pal_dict64_key a) as (pal' & Hpal' & Hnz).
  assert (pal' = pal) by congruence. subst pal'.
  rewrite (calculate_caloric_needs64_run _ _ _ _ _ _ _ _ Hlen Hne Hpal Hnz).
  rewrite Hb. cbn [bind scale]. now apply result_returns.
Qed.

(** One day of data at 150 lbs: the rate is zero whatever the platform's
    [exp] is away from zero. *)
Lemma single_day_rate64 (m : mathlib) :
  np_exp m 0 = 1 -> avg_weight_change m [150] = 0.
Proof.
  intros H. unfold avg_weight_change, B64.calculate_weight_trend.
  cbn [List.length seq map].
  replace (of_Z (- Z.of_nat 0) / of_Z 7) with 0%float
    by (vm_compute; reflexivity).
  rewrite H. vm_compute. reflexivity.
Qed.

End Binary64Facts.

(** ** Properties of the Trend Estimator *)

(** C4: for a non-empty series and a positive half-life the estimator
    returns the sum of [w_i * d_i] with [d_i = exp(-i/h) / sum_j exp(-j/h)],
    position 0 being the most recent sample; the array of decay weights the
    code builds holds exactly these [d_i], and they sum to 1. *)
Theorem trend_is_normalised_weighted_sum (w : R) (ws : list R) (h : Z) :
  (0 < h)%Z ->
  let weights := w :: ws in
  let n := List.length weights in
  calculate_weight_trend weights h = np_value (Spec.trend weights (IZR h))
  /\ (forall i, (i < n)%nat ->
                nth i (decay_weights n h) 0 = Spec.decay (IZR h) n i)
  /\ np_sum (decay_weights n h) = 1
  /\ Spec.sum_upto (Spec.decay (IZR h) n) n = 1.
Proof.
  intros Hh weights n. split; [|split; [|split]].
  - apply calculate_weight_trend_value. lia.
  - intros i Hi. rewrite decay_weights_spec.
    rewrite (nth_indep _ 0 (Spec.decay (IZR h) n 0%nat))
      by now rewrite length_map, length_seq.
    rewrite map_nth, seq_nth by assumption. reflexivity.
  - apply decay_weights_sum.
  - transitivity (np_sum (decay_weights n h)); [|apply decay_weights_sum].
    rewrite decay_weights_spec, np_sum_map_seq. reflexivity.
Qed.

Lemma trend_is_normalised_weighted_sum_witness :
  calculate_weight_trend [150; 151] 7 = np_value (Spec.trend [150; 151] 7)
  /\ np_sum (decay_weights 2 7) = 1.
Proof.
  pose proof (trend_is_normalised_weighted_sum 150 [151] 7 eq_refl) as H.
  cbv zeta in H. destruct H as [H1 [_ [H3 _]]]. split; assumption.
Defined.

(** C8, as the code has it: for a non-empty series and a positive half-life
    the estimator computes the weighted sum [Spec.trend], and in exact
    arithmetic that sum lies between the smallest and the largest sample; a
    single sample is returned unchanged. *)
Theorem trend_within_range (w : R) (ws : list R) (h : Z) :
  (0 < h)%Z ->
  calculate_weight_trend (w :: ws) h = np_value (Spec.trend (w :: ws) (IZR h))
  /\ Spec.list_min w ws <= Spec.trend (w :: ws) (IZR h) <= Spec.list_max w ws
  /\ calculate_weight_trend [w] h = np_value w.
Proof.
  intros Hh. split; [apply calculate_weight_trend_value; lia|]. split.
  - rewrite <- weighted_sum_spec. apply trend_bounds.
  - apply single_sample_trend. lia.
Qed.

Lemma trend_within_range_witness :
  180 <= Spec.trend [180; 181; 182] 7 <= 182
  /\ calculate_weight_trend [150] 7 = np_value 150.
Proof.
  destruct (trend_within_range 180 [181; 182] 7 ltac:(lia)) as (_ & Hb & _).
  split.
  - unfold Spec.list_min, Spec.list_max in Hb. simpl in Hb.
    unfold Rmin, Rmax in Hb.
    repeat destruct Rle_dec in Hb; lra.
  - apply (trend_within_range 150 [] 7). lia.
Defined.

(** C8 as written fails: for the series [122, 122] at half-life 7 the
    estimate is above 122, the largest sample, for either rounding of
    [exp(-1/7)]. *)
Lemma trend_exceeds_largest_sample :
  (122 <? B64.calculate_weight_trend sample_math [122; 122] 7)%float = true
  /\ (122 <? B64.calculate_weight_trend sample_math_up [122; 122] 7)%float
     = true.
Proof. split; vm_compute; reflexivity. Qed.

(** C5, as the code has it: the half-life is never validated and no error
    is raised for any value of it.  A positive half-life yields the
    normalised weighted sum; for a non-empty series a half-life of 0 yields
    NaN; a single sample with a negative half-life is returned as it is. *)
Theorem half_life_is_not_validated (w : R) (ws : list R) (h : Z) :
  ((0 < h)%Z ->
   calculate_weight_trend (w :: ws) h
   = np_value (Spec.trend (w :: ws) (IZR h)))
  /\ (h = 0%Z -> calculate_weight_trend (w :: ws) h = np_nan)
  /\ ((h < 0)%Z -> calculate_weight_trend [w] h = np_value w).
Proof.
  split; [|split].
  - intros Hh. apply calculate_weight_trend_value. lia.
  - intros ->. reflexivity.
  - intros Hh. apply single_sample_trend. lia.
Qed.

Lemma half_life_is_not_validated_witness :
  calculate_weight_trend [150; 151] 7
  = np_value (Spec.trend [150; 151] (IZR 7))
  /\ calculate_weight_trend [150; 151] 0 = np_nan
  /\ calculate_weight_trend [150] (-7) = np_value 150.
Proof.
  split; [|split].
  - apply (proj1 (half_life_is_not_validated 150 [151] 7)). lia.
  - apply (proj1 (proj2 (half_life_is_not_validated 150 [151] 0))).
    reflexivity.
  - apply (proj2 (proj2 (half_life_is_not_validated 150 [] (-7)))). lia.
Defined.

(** C5 as written fails: with the non-positive half-life -7 the estimator
    returns the number 150 for the series [150] instead of failing. *)
Lemma nonpositive_half_life_returns_a_number :
  (-7 <= 0)%Z /\ calculate_weight_trend [150] (-7) = np_value 150.
Proof.
  split; [lia|]. apply single_sample_trend. discriminate.
Qed.

(** ** Properties of the Caloric Needs Calculator *)

(** C1, as the code has it: the call fails with one of its four data
    errors, each a [ValueError], exactly when a history is empty, the
    histories differ in length, the profile is absent or the activity level
    is not a key of the table.  Otherwise it returns a complete result when
    the BMR is a real number and the four values handed to [round] are
    finite. *)
Theorem data_errors_and_results
        (weights_data calories_data : list (R * string))
        (user_data : option user_row) :
  (data_error_condition weights_data calories_data user_data <->
   exists msg,
     In msg data_errors
     /\ calculate_caloric_needs weights_data calories_data user_data
        = inl (ValueError msg))
  /\ (forall (m : B64.mathlib) (wd : list (float * string))
             (cd : list (Z * string)) (sex : string) (age height : Z)
             (a : Spec.ActivityLevel) (b pal : float),
         List.length wd = List.length cd ->
         wd <> [] ->
         dict_get B64.pal_dict (activity_key a) = Some pal ->
         B64.bmr_of m (nth 0 (map fst wd) 0%float) sex age height
         = inr (B64.real b) ->
         B64.finite (b * pal)%float = true ->
         B64.finite
           (B64.to_float (B64.maintenance_value m (map fst wd) (map fst cd)))
         = true ->
         B64.finite (B64.gain_value m (map fst wd) (map fst cd)) = true ->
         B64.finite (B64.lose_value m (map fst wd) (map fst cd)) = true ->
         exists res,
           B64.calculate_caloric_needs m wd cd
                                       (Some (sex, age, height, activity_key a))
           = inr res).
Proof.
  assert (Hvalid :
            ~ data_error_condition weights_data calories_data user_data ->
            List.length weights_data = List.length calories_data
            /\ weights_data <> []
            /\ exists sex age height a,
                user_data = Some (sex, age, height, activity_key a)).
  { intros Hn. unfold data_error_condition in Hn.
    split; [|split].
    - destruct (Nat.eq_dec (List.length weights_data)
                           (List.length calories_data)); tauto.
    - tauto.
    - destruct user_data as [[[[sex age] height] level]|]; [|tauto].
      destruct (dict_get pal_dict level) as [pal|] eqn:E.
      + apply pal_dict_some in E as [a [-> _]]. now exists sex, age, height, a.
      + apply pal_dict_none in E. exfalso. apply Hn.
        do 4 right. now exists sex, age, height, level. }
  split; [split|].
  - (* every listed condition raises one of the four errors *)
    intros Hc. unfold calculate_caloric_needs, data_errors.
    destruct (Nat.eqb_spec (List.length weights_data)
                           (List.length calories_data)) as [Hlen|Hlen];
      [|eexists; split; [|reflexivity]; simpl; tauto].
    cbn [negb].
    destruct weights_data as [|[w0 d] wrest];
      [eexists; split; [|reflexivity]; simpl; tauto|].
    destruct calories_data as [|[c0 dc] crest];
      [eexists; split; [|reflexivity]; simpl; tauto|].
    cbn [map fst].
    destruct user_data as [[[[sex age] height] level]|];
      [|eexists; split; [|reflexivity]; simpl; tauto].
    destruct (dict_get pal_dict level) as [pal|] eqn:E;
      [|eexists; split; [|reflexivity]; simpl; tauto].
    exfalso. apply pal_dict_some in E as [a [-> _]].
    destruct Hc as [Hc|[Hc|[Hc|[Hc|Hc]]]]; try discriminate; try contradiction.
    destruct Hc as (s' & a' & h' & l' & Heq & Hnot).
    injection Heq as _ _ _ <-. apply Hnot. now exists a.
  - (* a ValueError comes from a listed condition only *)
    intros [msg [_ Hmsg]].
    assert (Hdec : data_error_condition weights_data calories_data user_data
                   \/ ~ data_error_condition weights_data calories_data
                        user_data).
    { unfold data_error_condition.
      destruct weights_data as [|wd0 wdr]; [now left; left|].
      destruct calories_data as [|cd0 cdr]; [now left; right; left|].
      destruct (Nat.eq_dec (List.length (wd0 :: wdr)) (List.length (cd0 :: cdr)))
        as [Hl|Hl]; [|now left; do 2 right; left].
      destruct user_data as [[[[sex age] height] level]|];
        [|now left; do 3 right; left].
      destruct (dict_get pal_dict level) as [pal|] eqn:E.
      - right. apply pal_dict_some in E as [a [-> _]].
        intros [Hc|[Hc|[Hc|[Hc|Hc]]]]; try discriminate; try contradiction.
        destruct Hc as (s' & a' & h' & l' & Heq & Hnot).
        injection Heq as _ _ _ <-. apply Hnot. now exists a.
      - left. do 4 right. exists sex, age, height, level.
        split; [reflexivity|]. now apply pal_dict_none. }
    destruct Hdec as [Hc|Hn]; [exact Hc|exfalso].
    destruct (Hvalid Hn) as (Hlen & Hne & sex & age & height & a & ->).
    destruct (bmr_of (first_weight weights_data) sex age height) as [b|] eqn:Eb.
    + rewrite (calculate_caloric_needs_run _ _ _ _ _ _ _ Hlen Hne Eb) in Hmsg.
      discriminate.
    + rewrite (calculate_caloric_needs_complex _ _ _ _ _ _ Hlen Hne Eb) in Hmsg.
      discriminate.
  - intros m wd cd sex age height a b pal.
    apply calculate_caloric_needs64_returns.
Qed.

Lemma data_errors_and_results_witness :
  (exists msg,
      In msg data_errors
      /\ calculate_caloric_needs
           [(150, sample_day)] [(2000, sample_day)]
           (Some ("Male", 30%Z, 70%Z, "super_active"))
         = inl (ValueError msg))
  /\ (exists res,
         B64.calculate_caloric_needs sample_math [(150%float, sample_day)]
                                     [(2000%Z, sample_day)] sample_profile
         = inr res).
Proof.
  split.
  - apply (proj1 (proj1 (data_errors_and_results
                           [(150, sample_day)] [(2000, sample_day)]
                           (Some ("Male", 30%Z, 70%Z, "super_active"))))).
    do 4 right. exists "Male", 30%Z, 70%Z, "super_active".
    split; [reflexivity|]. intros [a Ha]. destruct a; discriminate.
  - destruct (B64.bmr_of sample_math 150%float "Male" 30 70) as [e|[b|]] eqn:Eb;
      [vm_compute in Eb; discriminate| |vm_compute in Eb; discriminate].
    apply (proj2 (data_errors_and_results [] [] None)
                 sample_math [(150%float, sample_day)] [(2000%Z, sample_day)]
                 "Male" 30%Z 70%Z Spec.sedentary b 1.2%float
                 eq_refl ltac:(discriminate) eq_refl Eb);
      [|vm_compute; reflexivity..].
    vm_compute in Eb. injection Eb as <-. vm_compute. reflexivity.
Defined.

(** C1 as written fails: none of the listed conditions holds for the
    single row with weight -1 and a registered sedentary profile, yet no
    result is returned; the 0.55 power of the negative weight is complex and
    [round] raises a [TypeError]. *)
Lemma negative_weight_gives_no_result :
  ~ data_error_condition [(-1, sample_day)] [(2000, sample_day)]
                         sample_profile
  /\ calculate_caloric_needs [(-1, sample_day)] [(2000, sample_day)]
                             sample_profile
     = inl (TypeError "type complex doesn't define __round__ method").
Proof.
  split.
  - intros [Hc|[Hc|[Hc|[Hc|Hc]]]]; try discriminate.
    + cbn in Hc. lia.
    + destruct Hc as (s & a & h & l & Heq & Hnot).
      injection Heq as _ _ _ <-. apply Hnot. now exists Spec.sedentary.
  - apply (calculate_caloric_needs_complex _ _ _ _ _ Spec.sedentary);
      [reflexivity|discriminate|].
    unfold bmr_of, first_weight. cbn [map fst nth].
    rewrite float_pow_neg by lra. reflexivity.
Qed.



(** C3, as the code has it: outside the maintaining band the three fields
    are the rounded values of the binary64 numbers [maintenance],
    [maintenance + 250.0] and [maintenance - 500.0], where [maintenance] is
    the average intake minus 3500 times the weekly rate and the weekly rate
    is the displacement of the half-life-7 trend from the current weight
    over [len / 7]; each is rounded on its own.  The call returns when these
    numbers and the scaled BMR are finite. *)
Theorem default_targets_binary64
        (m : B64.mathlib) (wd : list (float * string)) (cd : list (Z * string))
        (sex : string) (age height : Z) (a : Spec.ActivityLevel) :
  List.length wd = List.length cd ->
  wd <> [] ->
  let weights := map fst wd in
  let calories := map fst cd in
  let rate := B64.avg_weight_change m weights in
  let maintenance := B64.maintenance_calories m weights calories in
  ((-0.1 <=? rate) && (rate <=? 0.1))%float = false ->
  rate = ((B64.calculate_weight_trend m weights 7 - nth 0 weights 0)
          / B64.int_true_div (Z.of_nat (List.length weights)) 7)%float
  /\ maintenance
     = (B64.int_true_div (fold_left Z.add calories 0%Z)
                         (Z.of_nat (List.length calories))
        - rate * 3500)%float
  /\ (forall res,
         B64.calculate_caloric_needs m wd cd
                                     (Some (sex, age, height, activity_key a))
         = inr res ->
         B64.py_round maintenance = inr (Maintenance res)
         /\ B64.py_round (maintenance + 250)%float = inr (Gain res)
         /\ B64.py_round (maintenance - 500)%float = inr (Lose res))
  /\ (forall b pal,
         dict_get B64.pal_dict (activity_key a) = Some pal ->
         B64.bmr_of m (nth 0 weights 0%float) sex age height
         = inr (B64.real b) ->
         B64.finite (b * pal)%float = true ->
         B64.finite maintenance = true ->
         B64.finite (maintenance + 250)%float = true ->
         B64.finite (maintenance - 500)%float = true ->
         exists res,
           B64.calculate_caloric_needs m wd cd
                                       (Some (sex, age, height, activity_key a))
           = inr res).
Proof.
  intros Hlen Hne weights calories rate maintenance Hout.
  destruct (targets_default m weights calories Hout) as (Tm & Tg & Tl).
  fold maintenance in Tm, Tg, Tl.
  split; [reflexivity|]. split; [reflexivity|]. split.
  - intros res Hres.
    destruct (calculate_caloric_needs64_fields _ _ _ _ _ Hres)
      as (Hm & Hg & Hl & _).
    fold weights in Hm, Hg, Hl. fold calories in Hm, Hg, Hl.
    rewrite Tm in Hm. rewrite Tg in Hg. rewrite Tl in Hl.
    repeat split; assumption.
  - intros b pal Hpal Hb Hfb Hfm Hfg Hfl.
    apply (calculate_caloric_needs64_returns m wd cd sex age height a b pal
             Hlen Hne Hpal Hb Hfb);
      fold weights; fold calories; rewrite ?Tm, ?Tg, ?Tl;
      assumption.
Qed.

Lemma default_targets_binary64_witness :
  exists res,
    B64.calculate_caloric_needs sample_math near_tie_weights near_tie_calories
                                sample_profile
    = inr res
    /\ B64.py_round
         (B64.maintenance_calories sample_math (map fst near_tie_weights)
                                   (map fst near_tie_calories))
       = inr (Maintenance res).
Proof.
  destruct (B64.calculate_caloric_needs sample_math near_tie_weights
              near_tie_calories sample_profile) as [e|res] eqn:E;
    [vm_compute in E; discriminate|].
  exists res. split; [reflexivity|].
  destruct (default_targets_binary64
              sample_math near_tie_weights near_tie_calories
              "Male" 30 70 Spec.sedentary eq_refl ltac:(discriminate)
              ltac:(vm_compute; reflexivity))
    as (_ & _ & H & _).
  exact (proj1 (H res E)).
Defined.

(** C3 as written fails: for the two days of [near_tie_weights] with 1113
    kcal each the weekly rate is outside the band and the maintenance figure
    is 1983.4999999999998, so that maintenance + 250 rounds to 2233, yet the
    gain field is 2234; this holds for either rounding of [exp(-1/7)]. *)
Lemma gain_is_not_the_rounded_sum :
  ((-0.1 <=? B64.avg_weight_change sample_math (map fst near_tie_weights))
   && (B64.avg_weight_change sample_math (map fst near_tie_weights) <=? 0.1))%float
  = false
  /\ B64.round_half_even
       (B64.to_Q (B64.maintenance_calories sample_math
                    (map fst near_tie_weights) (map fst near_tie_calories))
        + inject_Z 250)
     = 2233%Z
  /\ (exists res,
         B64.calculate_caloric_needs sample_math near_tie_weights
                                     near_tie_calories sample_profile
         = inr res
         /\ Maintenance res = 1983%Z /\ Gain res = 2234%Z /\ Lose res = 1483%Z)
  /\ (exists res,
         B64.calculate_caloric_needs sample_math_up near_tie_weights
                                     near_tie_calories sample_profile
         = inr res
         /\ Maintenance res = 1983%Z /\ Gain res = 2234%Z /\ Lose res = 1483%Z).
Proof.
  split; [vm_compute; reflexivity|]. split; [vm_compute; reflexivity|].
  split; eexists; (split; [vm_compute; reflexivity|]);
    repeat split; reflexivity.
Qed.

(** C6, as the code has it: when the weekly rate lies within [-0.1, 0.1]
    the maintenance field is the most recent day's intake, the gain and the
    lose field are the rounded binary64 sums of that intake and 250.0,
    respectively -500.0, which is the intake plus 250 and minus 500 whenever
    the sum is exact, and the recommendation is the fixed maintaining-weight
    message.  For the single day weights = [150], calories = [2000] every
    result has 2000, 2250 and 1500.  The call returns when the scaled BMR
    and the two sums are finite. *)
Theorem maintaining_override_binary64 :
  (forall (m : B64.mathlib) (wd : list (float * string))
          (cd : list (Z * string)) (ud : option user_row)
          (res : caloric_needs),
      let rate := B64.avg_weight_change m (map fst wd) in
      let c0 := nth 0 (map fst cd) 0%Z in
      ((-0.1 <=? rate) && (rate <=? 0.1))%float = true ->
      B64.calculate_caloric_needs m wd cd ud = inr res ->
      Maintenance res = c0
      /\ B64.py_round (B64.of_Z c0 + 250)%float = inr (Gain res)
      /\ B64.py_round (B64.of_Z c0 - 500)%float = inr (Lose res)
      /\ Recommendation res = maintaining_message
      /\ (B64.gain_exact (B64.PyInt c0) -> Gain res = (c0 + 250)%Z)
      /\ (B64.lose_exact (B64.PyInt c0) -> Lose res = (c0 - 500)%Z))
  /\ (forall (m : B64.mathlib) (d1 d2 : string) (ud : option user_row)
             (res : caloric_needs),
         B64.np_exp m 0%float = 1%float ->
         B64.calculate_caloric_needs m [(150%float, d1)] [(2000%Z, d2)] ud
         = inr res ->
         Maintenance res = 2000%Z
         /\ Gain res = 2250%Z
         /\ Lose res = 1500%Z
         /\ Recommendation res = maintaining_message)
  /\ (forall (m : B64.mathlib) (wd : list (float * string))
             (cd : list (Z * string)) (sex : string) (age height : Z)
             (a : Spec.ActivityLevel) (b pal : float),
         let rate := B64.avg_weight_change m (map fst wd) in
         let c0 := nth 0 (map fst cd) 0%Z in
         List.length wd = List.length cd ->
         wd <> [] ->
         ((-0.1 <=? rate) && (rate <=? 0.1))%float = true ->
         dict_get B64.pal_dict (activity_key a) = Some pal ->
         B64.bmr_of m (nth 0 (map fst wd) 0%float) sex age height
         = inr (B64.real b) ->
         B64.finite (b * pal)%float = true ->
         B64.finite (B64.of_Z c0) = true ->
         B64.finite (B64.of_Z c0 + 250)%float = true ->
         B64.finite (B64.of_Z c0 - 500)%float = true ->
         exists res,
           B64.calculate_caloric_needs m wd cd
                                       (Some (sex, age, height, activity_key a))
           = inr res).
Proof.
  assert (Hgen :
    forall (m : B64.mathlib) (wd : list (float * string))
           (cd : list (Z * string)) (ud : option user_row)
           (res : caloric_needs),
      let rate := B64.avg_weight_change m (map fst wd) in
      let c0 := nth 0 (map fst cd) 0%Z in
      ((-0.1 <=? rate) && (rate <=? 0.1))%float = true ->
      B64.calculate_caloric_needs m wd cd ud = inr res ->
      Maintenance res = c0
      /\ B64.py_round (B64.of_Z c0 + 250)%float = inr (Gain res)
      /\ B64.py_round (B64.of_Z c0 - 500)%float = inr (Lose res)
      /\ Recommendation res = maintaining_message
      /\ (B64.gain_exact (B64.PyInt c0) -> Gain res = (c0 + 250)%Z)
      /\ (B64.lose_exact (B64.PyInt c0) -> Lose res = (c0 - 500)%Z)).
  { intros m wd cd ud res rate c0 Hin Hres.
    destruct (calculate_caloric_needs64_fields _ _ _ _ _ Hres)
      as (Hm & Hg & Hl & Hr & _).
    unfold B64.maintenance_value, B64.gain_value, B64.lose_value,
      B64.recommendation_value in Hm, Hg, Hl, Hr.
    rewrite (targets_maintaining _ _ _ Hin) in Hm, Hg, Hl, Hr.
    cbn [fst snd B64.round_num] in Hm, Hg, Hl, Hr. fold c0 in Hm, Hg, Hl.
    injection Hm as Hm.
    repeat split; try assumption; try (now symmetry).
    - intros Hx.
      exact (py_round_exact_sum (B64.PyInt c0) _ 250 _ _ eq_refl eq_refl Hg Hx).
    - intros Hx.
      exact (py_round_exact_sum (B64.PyInt c0) _ (-500) _ _ eq_refl eq_refl
               Hl Hx). }
  split; [exact Hgen|]. split.
  - intros m d1 d2 ud res Hexp Hres.
    destruct (Hgen m [(150%float, d1)] [(2000%Z, d2)] ud res)
      as (Hm & Hg & Hl & Hr & _).
    + cbn [map fst]. rewrite (single_day_rate64 m Hexp). reflexivity.
    + exact Hres.
    + cbn [map fst nth] in Hm, Hg, Hl.
      apply py_round_inr in Hg as [_ Hg]. apply py_round_inr in Hl as [_ Hl].
      repeat split; try assumption.
  - intros m wd cd sex age height a b pal rate c0 Hlen Hne Hin Hpal Hb
           Hfb Hfm Hfg Hfl.
    apply (calculate_caloric_needs64_returns m wd cd sex age height a b pal
             Hlen Hne Hpal Hb Hfb);
      unfold B64.maintenance_value, B64.gain_value, B64.lose_value;
      rewrite (targets_maintaining _ _ _ Hin); cbn [fst snd B64.to_float];
      assumption.
Qed.

Lemma maintaining_override_binary64_witness :
  exists res,
    B64.calculate_caloric_needs sample_math [(150%float, sample_day)]
                                [(2000%Z, sample_day)] sample_profile
    = inr res
    /\ Maintenance res = 2000%Z
    /\ Gain res = 2250%Z
    /\ Lose res = 1500%Z
    /\ Recommendation res = maintaining_message.
Proof.
  destruct (B64.calculate_caloric_needs sample_math [(150%float, sample_day)]
              [(2000%Z, sample_day)] sample_profile) as [e|res] eqn:E;
    [vm_compute in E; discriminate|].
  exists res. split; [reflexivity|].
  exact (proj1 (proj2 maintaining_override_binary64)
               sample_math sample_day sample_day sample_profile res
               eq_refl E).
Defined.

(** C6 as written fails: with one day at 150 lbs and an intake of
    9007199254740993 kcal (2^53 + 1) the rate is 0 and the maintenance field
    is that intake, but the gain field is 249 above it and the lose field
    501 below it: the intake is not a binary64 number and is rounded when
    250.0 is added. *)
Lemma override_offsets_are_not_exact :
  ((-0.1 <=? B64.avg_weight_change sample_math [150%float])
   && (B64.avg_weight_change sample_math [150%float] <=? 0.1))%float = true
  /\ exists res,
      B64.calculate_caloric_needs sample_math [(150%float, sample_day)]
                                  [(9007199254740993%Z, sample_day)]
                                  sample_profile
      = inr res
      /\ Maintenance res = 9007199254740993%Z
      /\ Gain res = (Maintenance res + 249)%Z
      /\ Lose res = (Maintenance res - 501)%Z.
Proof.
  split; [vm_compute; reflexivity|].
  eexists. split; [vm_compute; reflexivity|]. repeat split; reflexivity.
Qed.



(** C9, as the code has it: in both branches the gain and the lose field
    are the rounded binary64 sums of the maintenance figure and 250.0,
    respectively -500.0; they are Maintenance + 250 and Maintenance - 500 on
    the returned integers whenever that sum is exact. *)
Theorem targets_offset_binary64
        (m : B64.mathlib) (wd : list (float * string)) (cd : list (Z * string))
        (ud : option user_row) (res : caloric_needs) :
  B64.calculate_caloric_needs m wd cd ud = inr res ->
  let mc := B64.maintenance_value m (map fst wd) (map fst cd) in
  B64.round_num mc = inr (Maintenance res)
  /\ B64.py_round (B64.to_float mc + 250)%float = inr (Gain res)
  /\ B64.py_round (B64.to_float mc - 500)%float = inr (Lose res)
  /\ (B64.gain_exact mc -> Gain res = (Maintenance res + 250)%Z)
  /\ (B64.lose_exact mc -> Lose res = (Maintenance res - 500)%Z).
Proof.
  intros Hres mc.
  destruct (calculate_caloric_needs64_fields _ _ _ _ _ Hres)
    as (Hm & Hg & Hl & _).
  destruct (targets_offsets m (map fst wd) (map fst cd)) as [Eg El].
  fold mc in Hm, Eg, El. rewrite Eg in Hg. rewrite El in Hl.
  repeat split; try assumption.
  - intros Hx.
    exact (py_round_exact_sum mc _ 250 _ _ eq_refl Hm Hg Hx).
  - intros Hx.
    exact (py_round_exact_sum mc _ (-500) _ _ eq_refl Hm Hl Hx).
Qed.

Lemma targets_offset_binary64_witness :
  exists res,
    B64.calculate_caloric_needs sample_math [(150%float, sample_day)]
                                [(2000%Z, sample_day)] sample_profile
    = inr res
    /\ Gain res = (Maintenance res + 250)%Z
    /\ Lose res = (Maintenance res - 500)%Z.
Proof.
  destruct (B64.calculate_caloric_needs sample_math [(150%float, sample_day)]
              [(2000%Z, sample_day)] sample_profile) as [e|res] eqn:E;
    [vm_compute in E; discriminate|].
  exists res. split; [reflexivity|].
  destruct (targets_offset_binary64 _ _ _ _ _ E) as (_ & _ & _ & Hg & Hl).
  split; [apply Hg|apply Hl]; vm_compute; reflexivity.
Defined.

(** C9 as written fails in both branches.  With one day at 150 lbs and an
    intake of 2^54 kcal the maintaining branch answers and the gain field is
    248 above the maintenance field: 2^54 + 250 is not a binary64 number.
    With the two days of [near_tie_weights] the default branch answers with
    1983 and 2234, 251 apart: the maintenance figure is just below a tie and
    adding 250.0 rounds it onto the tie. *)
Lemma gain_is_not_250_above_maintenance :
  (exists res,
      B64.calculate_caloric_needs sample_math [(150%float, sample_day)]
                                  [(18014398509481984%Z, sample_day)]
                                  sample_profile
      = inr res
      /\ Recommendation res = maintaining_message
      /\ Gain res = (Maintenance res + 248)%Z)
  /\ (exists res,
         B64.calculate_caloric_needs sample_math near_tie_weights
                                     near_tie_calories sample_profile
         = inr res
         /\ Maintenance res = 1983%Z
         /\ Gain res = (Maintenance res + 251)%Z).
Proof.
  split; eexists; (split; [vm_compute; reflexivity|]);
    repeat split; reflexivity.
Qed.

(** C10: on every successful return the recommendation is a non-empty
    string; the three comparisons against the band cover every real rate, so
    the final branch with the empty recommendation is never taken. *)
Theorem recommendation_nonempty
        (weights_data calories_data : list (R * string))
        (user_data : option user_row) (res : caloric_needs) :
  calculate_caloric_needs weights_data calories_data user_data = inr res ->
  Recommendation res <> EmptyString
  /\ (Recommendation res = maintaining_message
      \/ Recommendation res = losing_message (rate_of weights_data)
      \/ Recommendation res = gaining_message (rate_of weights_data)).
Proof.
  intros Hres.
  destruct (calculate_caloric_needs_inr _ _ _ _ Hres)
    as (Hlen & Hne & sex & age & height & a & b & -> & Hb).
  rewrite (calculate_caloric_needs_run _ _ _ _ _ _ _ Hlen Hne Hb) in Hres.
  injection Hres as <-. cbn [Recommendation]. unfold adjusted.
  destruct (band_cases (rate_of weights_data)) as [Hin|[Hlo|Hhi]].
  - rewrite adjust_maintaining by exact Hin. cbn [fst].
    split; [apply maintaining_message_nonempty | now left].
  - rewrite adjust_losing by exact Hlo. cbn [fst].
    split; [apply losing_message_nonempty | now right; left].
  - rewrite adjust_gaining by exact Hhi. cbn [fst].
    split; [apply gaining_message_nonempty | now right; right].
Qed.

Lemma recommendation_nonempty_witness :
  exists res,
    calculate_caloric_needs [(150, sample_day)] [(2000, sample_day)]
                            sample_profile
    = inr res
    /\ Recommendation res <> EmptyString.
Proof.
  assert (Hw : 0 <= first_weight [(150, sample_day)])
    by (unfold first_weight; cbn [map fst nth]; lra).
  destruct (bmr_of_some _ "Male" 30 70 Hw) as [b Hb].
  pose proof (calculate_caloric_needs_run
                [(150, sample_day)] [(2000, sample_day)]
                "Male" 30 70 Spec.sedentary b eq_refl ltac:(discriminate) Hb)
    as Hrun.
  eexists. split; [exact Hrun|].
  exact (proj1 (recommendation_nonempty _ _ _ _ Hrun)).
Defined.

(** ** Facts about the storage model *)

Section DbFacts.

Import Db.

Lemma find_app_none {A : Type} (f : A -> bool) (l l' : list A) :
  find f l = None -> find f (app l l') = find f l'.
Proof.
  induction l as [|x l IH]; simpl; [reflexivity|].
  destruct (f x); [discriminate|exact IH].
Qed.

Lemma find_app_some {A : Type} (f : A -> bool) (l l' : list A) (x : A) :
  find f l = Some x -> find f (app l l') = Some x.
Proof.
  induction l as [|y l IH]; simpl; [discriminate|].
  destruct (f y); [trivial|exact IH].
Qed.

Lemma find_none_of_existsb {A : Type} (f g : A -> bool) (l : list A) :
  (forall x, g x = true -> f x = true) ->
  existsb f l = false -> find g l = None.
Proof.
  intros Hgf. induction l as [|x l IH]; simpl; [reflexivity|].
  intros H. apply orb_false_iff in H as [Hx Hl].
  destruct (g x) eqn:E; [apply Hgf in E; congruence|auto].
Qed.

Lemma max_id_bound (us : list user_rec) (u : user_rec) :
  In u us -> (u_id u <= fold_right Z.max 0 (map u_id us))%Z.
Proof.
  induction us as [|v us IH]; simpl; [contradiction|].
  intros [->|Hin]; [lia|]. specialize (IH Hin). lia.
Qed.

Lemma next_rowid_fresh (us : list user_rec) :
  ~ In (next_rowid us) (map u_id us).
Proof.
  intros Hin. apply in_map_iff in Hin as [u [Hid Hu]].
  apply max_id_bound in Hu. unfold next_rowid in Hid. lia.
Qed.

Lemma username_taken_iff (c : conn) (username : string) :
  existsb (fun u => String.eqb (u_username u) username) (users c) = true
  <-> In username (map u_username (users c)).
Proof.
  rewrite existsb_exists, in_map_iff. split.
  - intros [u [Hu E]]. apply String.eqb_eq in E. now exists u.
  - intros [u [E Hu]]. exists u. split; [exact Hu|now apply String.eqb_eq].
Qed.

Lemma NoDup_snoc {A : Type} (l : list A) (a : A) :
  NoDup l -> ~ In a l -> NoDup (app l [a]).
Proof.
  induction 1 as [|x l Hx Hl IH]; intros Ha; simpl.
  - constructor; [easy|constructor].
  - constructor.
    + rewrite in_app_iff. intros [H|[H|[]]]; [easy|].
      apply Ha. now left.
    + apply IH. intros H. apply Ha. now right.
Qed.

End DbFacts.

(** ** Properties of the account functions *)

(** X1.  [create_user] followed by [get_user] with the same name and password
    returns the id [create_user] gave, that id is new, and what [get_user]
    answers for any other name is unchanged. *)
Theorem create_user_then_get_user
        (c c' : Db.conn) (username password sex : string) (age height : Z)
        (activity_level : string) (rowid : Z) :
  Db.create_user c username password sex age height activity_level
  = inr (c', rowid) ->
  Db.get_user c' username password = Some rowid
  /\ ~ In rowid (map Db.u_id (Db.users c))
  /\ Db.select_profile c' rowid = Some (sex, age, height, activity_level)
  /\ forall other pw,
      other <> username -> Db.get_user c' other pw = Db.get_user c other pw.
Proof.
  unfold Db.create_user.
  destruct (existsb _ (Db.users c)) eqn:Etaken; [discriminate|].
  intros H. injection H as <- <-.
  split; [|split; [|split]].
  - unfold Db.get_user. cbn [Db.users].
    rewrite find_app_none.
    + cbn [find Db.u_username Db.u_password]. now rewrite !String.eqb_refl.
    + eapply find_none_of_existsb; [|exact Etaken].
      intros u Hu. now apply andb_true_iff in Hu as [Hu _].
  - apply next_rowid_fresh.
  - unfold Db.select_profile. cbn [Db.users].
    rewrite find_app_none.
    + cbn [find Db.u_id]. now rewrite Z.eqb_refl.
    + destruct (find _ (Db.users c)) as [u|] eqn:E; [|reflexivity].
      apply find_some in E as [Hu E]. apply Z.eqb_eq in E.
      exfalso. apply (next_rowid_fresh (Db.users c)).
      rewrite <- E. now apply in_map.
  - intros other pw Hother. unfold Db.get_user. cbn [Db.users].
    destruct (find _ (Db.users c)) as [u|] eqn:E.
    + now rewrite (find_app_some _ _ _ _ E).
    + rewrite (find_app_none _ _ _ E). cbn [find Db.u_username].
      destruct (String.eqb_spec username other) as [->|_];
        [contradiction|reflexivity].
Qed.

Lemma create_user_then_get_user_witness :
  exists c' rowid,
    Db.create_user Db.create_tables "alice" "hash" "Female" 30 65 "sedentary"
    = inr (c', rowid)
    /\ Db.get_user c' "alice" "hash" = Some rowid.
Proof.
  eexists. eexists. split; [reflexivity|].
  refine (proj1 (create_user_then_get_user
                   Db.create_tables _ "alice" "hash" "Female" 30 65
                   "sedentary" _ eq_refl)).
Defined.

(** X2.  [create_user] fails with an integrity error exactly when the username
    is already stored; when it succeeds, names and ids that were pairwise
    distinct stay so. *)
Theorem create_user_keeps_names_unique
        (c : Db.conn) (username password sex : string) (age height : Z)
        (activity_level : string) :
  (In username (map Db.u_username (Db.users c)) <->
   exists msg,
     Db.create_user c username password sex age height activity_level
     = inl (Db.IntegrityError msg))
  /\ (forall c' rowid,
         Db.create_user c username password sex age height activity_level
         = inr (c', rowid) ->
         NoDup (map Db.u_username (Db.users c)) ->
         NoDup (map Db.u_id (Db.users c)) ->
         NoDup (map Db.u_username (Db.users c'))
         /\ NoDup (map Db.u_id (Db.users c'))).
Proof.
  unfold Db.create_user.
  destruct (existsb _ (Db.users c)) eqn:Etaken.
  - split.
    + split; [intros _; eexists; reflexivity|].
      intros _. now apply username_taken_iff.
    + intros c' rowid H. discriminate.
  - split.
    + split.
      * intros Hin. apply username_taken_iff in Hin. congruence.
      * intros [msg H]. discriminate.
    + intros c' rowid H Hnames Hids. injection H as <- <-.
      cbn [Db.users]. rewrite !map_app. cbn [map Db.u_username Db.u_id].
      split.
      * apply NoDup_snoc; [exact Hnames|].
        intros Hin. apply username_taken_iff in Hin. congruence.
      * apply NoDup_snoc; [exact Hids|apply next_rowid_fresh].
Qed.

Lemma create_user_keeps_names_unique_witness :
  exists c' rowid,
    Db.create_user Db.create_tables "alice" "hash" "Female" 30 65 "sedentary"
    = inr (c', rowid)
    /\ NoDup (map Db.u_username (Db.users c')).
Proof.
  eexists. eexists. split; [reflexivity|].
  refine (proj1 (proj2 (create_user_keeps_names_unique
                          Db.create_tables "alice" "hash" "Female" 30 65
                          "sedentary") _ _ eq_refl _ _));
    constructor.
Defined.

(** ** Facts about the data tables *)

Section TableFacts.

Import Db.

Lemma filter_map_fixed {A : Type} (p : A -> bool) (f : A -> A) (l : list A) :
  (forall x, p (f x) = p x) -> filter p (map f l) = map f (filter p l).
Proof.
  intros Hp. induction l as [|x l IH]; simpl; [reflexivity|].
  rewrite Hp. destruct (p x); simpl; now rewrite IH.
Qed.

Lemma matches_updated (u u' : Z) (d d' : string) (v : R) (r : data_row) :
  matches u' d' (if matches u d r then (row_user r, v, row_date r) else r)
  = matches u' d' r.
Proof. destruct (matches u d r); reflexivity. Qed.

Lemma filter_update_rows (t : list data_row) (u u' : Z) (d d' : string) (v : R) :
  filter (matches u' d') (update_rows t u d v)
  = map (fun r => if matches u d r then (row_user r, v, row_date r) else r)
        (filter (matches u' d') t).
Proof.
  unfold update_rows. apply filter_map_fixed. intros r. apply matches_updated.
Qed.

Lemma entries_update_rows (t : list data_row) (u u' : Z) (d d' : string) (v : R) :
  entries (update_rows t u d v) u' d' = entries t u' d'.
Proof. unfold entries. now rewrite filter_update_rows, length_map. Qed.

Lemma entries_app (t : list data_row) (r : data_row) (u : Z) (d : string) :
  entries (app t [r]) u d
  = (entries t u d + if matches u d r then 1 else 0)%nat.
Proof.
  unfold entries. rewrite filter_app, length_app. cbn [filter].
  destruct (matches u d r); reflexivity.
Qed.

Lemma existsb_entries (t : list data_row) (u : Z) (d : string) :
  existsb (matches u d) t = negb (entries t u d =? 0)%nat.
Proof.
  unfold entries. induction t as [|r t IH]; simpl; [reflexivity|].
  destruct (matches u d r); simpl; [reflexivity|exact IH].
Qed.

Lemma matches_same (u u' : Z) (d d' : string) (r : data_row) :
  matches u d r = true -> matches u' d' r = true -> u' = u /\ d' = d.
Proof.
  unfold matches. intros H H'.
  apply andb_true_iff in H as [Hu Hd], H' as [Hu' Hd'].
  apply Z.eqb_eq in Hu, Hu'. apply String.eqb_eq in Hd, Hd'.
  split; congruence.
Qed.

Lemma matches_key (u u' : Z) (d d' : string) (v : R) :
  matches u' d' (u, v, d) = true <-> u' = u /\ d' = d.
Proof.
  unfold matches. cbn. rewrite andb_true_iff, Z.eqb_eq, String.eqb_eq.
  split; intros [-> ->]; split; reflexivity.
Qed.

(** The rows of another user or another date are the same after an UPDATE
    or an INSERT for [(u, d)]. *)
Lemma filter_update_rows_other (t : list data_row) (u u' : Z) (d d' : string)
      (v : R) :
  (u', d') <> (u, d) ->
  filter (matches u' d') (update_rows t u d v) = filter (matches u' d') t.
Proof.
  intros Hkey. rewrite filter_update_rows.
  rewrite <- (map_id (filter (matches u' d') t)) at 2.
  apply map_ext_in. intros r Hr. apply filter_In in Hr as [_ Hr].
  destruct (matches u d r) eqn:E; [|reflexivity].
  destruct (matches_same _ _ _ _ _ E Hr) as [-> ->]. contradiction.
Qed.

Lemma filter_insert_other (t : list data_row) (u u' : Z) (d d' : string) (v : R) :
  (u', d') <> (u, d) ->
  filter (matches u' d') (app t [(u, v, d)]) = filter (matches u' d') t.
Proof.
  intros Hkey. rewrite filter_app. cbn [filter].
  destruct (matches u' d' (u, v, d)) eqn:E.
  - apply matches_key in E as [-> ->]. contradiction.
  - apply app_nil_r.
Qed.

Lemma update_rows_value (t : list data_row) (u : Z) (d : string) (v : R)
      (r : data_row) :
  In r (update_rows t u d v) -> matches u d r = true -> row_value r = v.
Proof.
  unfold update_rows. intros Hin Hm.
  apply in_map_iff in Hin as [r0 [<- _]].
  destruct (matches u d r0) eqn:E; [reflexivity|congruence].
Qed.

Lemma upserted_present (t : list data_row) (u : Z) (d : string) (v : R) :
  (1 <= entries (upserted t u d v) u d)%nat.
Proof.
  unfold upserted. destruct (existsb (matches u d) t) eqn:E.
  - rewrite entries_update_rows. rewrite existsb_entries in E.
    destruct (Nat.eqb_spec (entries t u d) 0); [discriminate|lia].
  - rewrite entries_app.
    replace (matches u d (u, v, d)) with true
      by (symmetry; now apply matches_key).
    lia.
Qed.

Lemma upserted_value (t : list data_row) (u : Z) (d : string) (v : R)
      (r : data_row) :
  In r (upserted t u d v) -> matches u d r = true -> row_value r = v.
Proof.
  unfold upserted. destruct (existsb (matches u d) t) eqn:E.
  - apply update_rows_value.
  - intros Hin Hm. apply in_app_iff in Hin as [Hin|[<-|[]]]; [|reflexivity].
    assert (existsb (matches u d) t = true)
      by (apply existsb_exists; now exists r).
    congruence.
Qed.

Lemma upserted_other (t : list data_row) (u u' : Z) (d d' : string) (v : R) :
  (u', d') <> (u, d) ->
  filter (matches u' d') (upserted t u d v) = filter (matches u' d') t.
Proof.
  intros Hkey. unfold upserted. destruct (existsb (matches u d) t).
  - now apply filter_update_rows_other.
  - now apply filter_insert_other.
Qed.

Lemma upserted_entries (t : list data_row) (u u' : Z) (d d' : string) (v : R) :
  entries (upserted t u d v) u' d'
  = if existsb (matches u d) t then entries t u' d'
    else (entries t u' d' + if matches u' d' (u, v, d) then 1 else 0)%nat.
Proof.
  unfold upserted. destruct (existsb (matches u d) t).
  - apply entries_update_rows.
  - apply entries_app.
Qed.

Lemma weight_entry_success (c : conn) (u : Z) (d : string) (w k : R)
      (reply_yes : bool) :
  snd (weight_entry c u d w k reply_yes) = Success ->
  fst (weight_entry c u d w k reply_yes)
  = mk_conn (users c) (upserted (weights c) u d w) (upserted (calories c) u d k).
Proof.
  unfold weight_entry, upserted.
  destruct ((existsb _ (weights c) || existsb _ (calories c)) && negb reply_yes);
    [discriminate|reflexivity].
Qed.

Lemma weight_entry_cases (c : conn) (u : Z) (d : string) (w k : R)
      (reply_yes : bool) :
  weight_entry c u d w k reply_yes = (c, Cancelled)
  \/ weight_entry c u d w k reply_yes
     = (mk_conn (users c) (upserted (weights c) u d w)
                (upserted (calories c) u d k), Success).
Proof.
  unfold weight_entry, upserted.
  destruct ((existsb _ (weights c) || existsb _ (calories c)) && negb reply_yes);
    [now left|now right].
Qed.

Lemma upserted_synced (c : conn) (u : Z) (d : string) (w k : R) :
  synced c ->
  synced (mk_conn (users c) (upserted (weights c) u d w)
                  (upserted (calories c) u d k)).
Proof.
  intros Hs u' d'. cbn [weights calories]. rewrite !upserted_entries.
  rewrite !existsb_entries, (Hs u d), (Hs u' d').
  destruct (negb (entries (calories c) u d =? 0)%nat); [reflexivity|].
  unfold matches. reflexivity.
Qed.

Lemma upserted_one_per_day (t : list data_row) (u u' : Z) (d d' : string) (v : R) :
  (entries t u' d' <= 1)%nat -> (entries (upserted t u d v) u' d' <= 1)%nat.
Proof.
  intros H. rewrite upserted_entries.
  destruct (existsb (matches u d) t) eqn:E; [exact H|].
  destruct (matches u' d' (u, v, d)) eqn:Em; [|lia].
  apply matches_key in Em as [-> ->].
  rewrite existsb_entries in E.
  destruct (Nat.eqb_spec (entries t u d) 0); [lia|discriminate].
Qed.

Lemma reachable_synced (c : conn) : reachable c -> synced c /\ one_per_day c.
Proof.
  induction 1 as [|c ? ? ? ? ? ? c' rowid _ [IHs IHo] Hc
                  |c ? ? ? ? _ [IHs IHo]
                  |c u d w k reply _ [IHs IHo]].
  - split; intros u d; [reflexivity|split; cbn; lia].
  - unfold create_user in Hc. destruct (existsb _ (users c)); [discriminate|].
    injection Hc as <- _. split; [exact IHs|exact IHo].
  - split; [exact IHs|exact IHo].
  - destruct (weight_entry_cases c u d w k reply) as [-> | ->]; cbn [fst].
    + split; [exact IHs|exact IHo].
    + split; [now apply upserted_synced|].
      intros u' d'. cbn [weights calories].
      destruct (IHo u' d'). split; now apply upserted_one_per_day.
Qed.

End TableFacts.

Section SelectFacts.

Import Db.

Lemma insert_desc_length {A : Type} (key : A -> string) (r : A) (l : list A) :
  List.length (insert_desc key r l) = S (List.length l).
Proof.
  induction l as [|x l IH]; simpl; [reflexivity|].
  destruct (String.leb (key x) (key r)); simpl; [reflexivity|now rewrite IH].
Qed.

Lemma order_by_desc_length {A : Type} (key : A -> string) (l : list A) :
  List.length (order_by_desc key l) = List.length l.
Proof.
  induction l as [|x l IH]; simpl; [reflexivity|].
  now rewrite insert_desc_length, IH.
Qed.

Lemma insert_desc_perm {A : Type} (key : A -> string) (r : A) (l : list A) :
  Permutation (r :: l) (insert_desc key r l).
Proof.
  induction l as [|x l IH]; simpl; [reflexivity|].
  destruct (String.leb (key x) (key r)); [reflexivity|].
  rewrite perm_swap. now apply perm_skip.
Qed.

Lemma order_by_desc_perm {A : Type} (key : A -> string) (l : list A) :
  Permutation l (order_by_desc key l).
Proof.
  induction l as [|x l IH]; simpl; [reflexivity|].
  rewrite <- insert_desc_perm. now apply perm_skip.
Qed.

Lemma sql_limit_length {A B : Type} (n : Z) (l : list A) (l' : list B) :
  List.length l = List.length l' ->
  List.length (sql_limit n l) = List.length (sql_limit n l').
Proof.
  intros H. unfold sql_limit. destruct (n <? 0)%Z; [exact H|].
  now rewrite !length_firstn, H.
Qed.

Lemma sql_limit_nonempty {A : Type} (n : Z) (l : list A) :
  n <> 0%Z -> l <> [] -> sql_limit n l <> [].
Proof.
  intros Hn Hl. unfold sql_limit.
  destruct (Z.ltb_spec n 0); [exact Hl|].
  destruct l as [|x l]; [contradiction|].
  destruct (Z.to_nat n) eqn:E; [lia|discriminate].
Qed.

Lemma select_recent_length (t : list data_row) (u limit : Z) :
  limit <> 0%Z ->
  List.length (select_recent t u limit)
  = (if (limit <? 0)%Z then List.length (filter (of_user u) t)
     else Nat.min (Z.to_nat limit) (List.length (filter (of_user u) t))).
Proof.
  intros _. unfold select_recent, sql_limit.
  destruct (limit <? 0)%Z.
  - now rewrite order_by_desc_length, length_map.
  - now rewrite length_firstn, order_by_desc_length, length_map.
Qed.

Lemma entries_count_occ (t : list data_row) (u : Z) (d : string) :
  entries t u d
  = count_occ string_dec (map row_date (filter (of_user u) t)) d.
Proof.
  unfold entries. induction t as [|r t IH]; [reflexivity|].
  cbn [filter]. unfold matches, of_user in *.
  destruct (row_user r =? u)%Z; cbn [andb map].
  - destruct (String.eqb_spec (row_date r) d) as [E|E].
    + cbn [List.length count_occ]. rewrite IH.
      destruct (string_dec (row_date r) d); [reflexivity|contradiction].
    + cbn [count_occ]. rewrite IH.
      destruct (string_dec (row_date r) d); [contradiction|reflexivity].
  - exact IH.
Qed.

(** In a synced database a user has as many weight rows as calorie rows. *)
Lemma synced_user_rows (c : conn) (u : Z) :
  synced c ->
  List.length (filter (of_user u) (weights c))
  = List.length (filter (of_user u) (calories c)).
Proof.
  intros Hs.
  rewrite <- (length_map row_date (filter (of_user u) (weights c))).
  rewrite <- (length_map row_date (filter (of_user u) (calories c))).
  apply Permutation_length.
  apply (Permutation_count_occ string_dec). intros d.
  rewrite <- !entries_count_occ. apply Hs.
Qed.

Lemma synced_selects (c : conn) (u limit : Z) :
  synced c ->
  List.length (select_recent (weights c) u limit)
  = List.length (select_recent (calories c) u limit).
Proof.
  intros Hs. unfold select_recent. apply sql_limit_length.
  rewrite !order_by_desc_length, !length_map. now apply synced_user_rows.
Qed.

Lemma no_length_error (wd cd : list (R * string)) (ud : option user_row) :
  List.length wd = List.length cd ->
  calculate_caloric_needs wd cd ud
  <> inl (ValueError "Weights and calories lists must have the same length.").
Proof.
  intros Hlen. unfold calculate_caloric_needs.
  rewrite Hlen, Nat.eqb_refl. cbn [negb].
  destruct wd as [|[w0 d] wrest]; [discriminate|].
  destruct cd as [|[c0 dc] crest]; [discriminate|].
  cbn [map fst].
  destruct ud as [[[[sex age] height] level]|]; [|discriminate].
  destruct (dict_get pal_dict level) as [pal|]; [|discriminate].
  destruct (Req_dec_T pal 0); [discriminate|].
  rewrite calculate_weight_trend_value by discriminate.
  destruct (adjust _ _ _ _ _ _) as [[[r m] g] l].
  destruct (option_map _ _); discriminate.
Qed.

Lemma length_mismatch_error (wd cd : list (R * string)) (ud : option user_row) :
  List.length wd <> List.length cd ->
  calculate_caloric_needs wd cd ud
  = inl (ValueError "Weights and calories lists must have the same length.").
Proof.
  intros Hlen. unfold calculate_caloric_needs.
  destruct (Nat.eqb_spec (List.length wd) (List.length cd)); [contradiction|].
  reflexivity.
Qed.

Lemma no_data_error (cd : list (R * string)) (ud : option user_row) :
  cd = [] ->
  calculate_caloric_needs [] cd ud
  = inl (ValueError "No data found for the user.").
Proof. intros ->. reflexivity. Qed.

End SelectFacts.

(** ** Properties of data entry *)

(** X3.  [weight_entry] is cancelled exactly when a row for the date exists and
    the update is declined, and then nothing changes.  Otherwise the user's
    rows for that date hold the new weight and calories in both tables,
    every other user's and date's rows are as before, and so is the users
    table. *)
Theorem weight_entry_outcome
        (c : Db.conn) (user_id : Z) (date : string) (weight calories_value : R)
        (reply_yes : bool) :
  let c' := fst (Db.weight_entry c user_id date weight calories_value reply_yes) in
  let result := snd (Db.weight_entry c user_id date weight calories_value reply_yes) in
  (result = Db.Cancelled <->
   (1 <= Db.entries (Db.weights c) user_id date
         + Db.entries (Db.calories c) user_id date)%nat
   /\ reply_yes = false)
  /\ (result = Db.Cancelled -> c' = c)
  /\ (result = Db.Success ->
      Db.users c' = Db.users c
      /\ (1 <= Db.entries (Db.weights c') user_id date)%nat
      /\ (1 <= Db.entries (Db.calories c') user_id date)%nat
      /\ (forall r, In r (Db.weights c') ->
                    Db.matches user_id date r = true -> Db.row_value r = weight)
      /\ (forall r, In r (Db.calories c') ->
                    Db.matches user_id date r = true ->
                    Db.row_value r = calories_value)
      /\ (forall u d,
             (u, d) <> (user_id, date) ->
             filter (Db.matches u d) (Db.weights c')
             = filter (Db.matches u d) (Db.weights c)
             /\ filter (Db.matches u d) (Db.calories c')
                = filter (Db.matches u d) (Db.calories c))).
Proof.
  intros c' result. split; [|split].
  - subst result. unfold Db.weight_entry.
    rewrite !existsb_entries.
    destruct (Nat.eqb_spec (Db.entries (Db.weights c) user_id date) 0) as [E1|E1];
      destruct (Nat.eqb_spec (Db.entries (Db.calories c) user_id date) 0)
      as [E2|E2];
      destruct reply_yes; cbn; split; intros H;
        try discriminate; try reflexivity; try (split; [lia|reflexivity]);
          try (destruct H; discriminate); destruct H; lia.
  - subst c' result.
    destruct (weight_entry_cases c user_id date weight calories_value reply_yes)
      as [-> | ->]; cbn; [reflexivity|discriminate].
  - intros Hs. subst c' result. rewrite (weight_entry_success _ _ _ _ _ _ Hs).
    cbn [Db.users Db.weights Db.calories].
    split; [reflexivity|].
    split; [apply upserted_present|].
    split; [apply upserted_present|].
    split; [apply upserted_value|].
    split; [apply upserted_value|].
    intros u d Hkey. split; now apply upserted_other.
Qed.

Lemma weight_entry_outcome_witness :
  let c' := fst (Db.weight_entry Db.create_tables 1 "2025-01-2" 150 2000 false) in
  Db.users c' = Db.users Db.create_tables
  /\ (1 <= Db.entries (Db.weights c') 1 "2025-01-2")%nat.
Proof.
  destruct (weight_entry_outcome Db.create_tables 1 "2025-01-2" 150 2000 false)
    as (_ & _ & H).
  destruct (H eq_refl) as (Hu & Hw & _). split; [exact Hu|exact Hw].
Defined.

(** X4.  Every database the forms can produce keeps the two tables in step, with
    at most one row per user and date in each. *)
Theorem forms_keep_tables_in_step (c : Db.conn) :
  Db.reachable c -> Db.synced c /\ Db.one_per_day c.
Proof. apply reachable_synced. Qed.

Lemma forms_keep_tables_in_step_witness :
  Db.synced (fst (Db.weight_entry Db.create_tables 1 "2025-01-2" 150 2000 true)).
Proof.
  apply (forms_keep_tables_in_step
           (fst (Db.weight_entry Db.create_tables 1 "2025-01-2" 150 2000 true))).
  apply Db.reach_weight_entry. apply Db.reach_create_tables.
Defined.

(** X5.  On a database whose tables are in step, in particular on every one the
    forms can produce, [calculate_caloric_needs] fetches histories of equal
    length for every user and period and never raises its length error. *)
Theorem entered_data_passes_length_check (c : Db.conn) (user_id period_days : Z) :
  Db.synced c ->
  let limit := if (period_days =? 0)%Z then (-1)%Z else period_days in
  List.length (Db.select_recent (Db.weights c) user_id limit)
  = List.length (Db.select_recent (Db.calories c) user_id limit)
  /\ Db.calculate_caloric_needs_conn c user_id period_days
     <> inl (ValueError "Weights and calories lists must have the same length.").
Proof.
  intros Hs limit. split; [now apply synced_selects|].
  unfold Db.calculate_caloric_needs_conn. apply no_length_error.
  now apply synced_selects.
Qed.

Lemma entered_data_passes_length_check_witness :
  Db.calculate_caloric_needs_conn
    (fst (Db.weight_entry Db.create_tables 1 "2025-01-2" 150 2000 true)) 1 (-1)
  <> inl (ValueError "Weights and calories lists must have the same length.").
Proof.
  apply (entered_data_passes_length_check
           (fst (Db.weight_entry Db.create_tables 1 "2025-01-2" 150 2000 true))
           1 (-1)).
  apply reachable_synced.
  apply Db.reach_weight_entry. apply Db.reach_create_tables.
Defined.

(** X6.  A user without any stored row gets the "No data found" error, whether
    or not a profile exists and whatever the period. *)
Theorem no_rows_no_result (c : Db.conn) (user_id period_days : Z) :
  filter (Db.of_user user_id) (Db.weights c) = [] ->
  filter (Db.of_user user_id) (Db.calories c) = [] ->
  Db.calculate_caloric_needs_conn c user_id period_days
  = inl (ValueError "No data found for the user.").
Proof.
  intros Hw Hc. unfold Db.calculate_caloric_needs_conn, Db.select_recent.
  rewrite Hw, Hc. cbn [map Db.order_by_desc fold_right].
  unfold Db.sql_limit.
  destruct (_ <? 0)%Z; [reflexivity|].
  rewrite firstn_nil. reflexivity.
Qed.

Lemma no_rows_no_result_witness :
  Db.calculate_caloric_needs_conn Db.create_tables 1 (-1)
  = inl (ValueError "No data found for the user.").
Proof.
  apply (no_rows_no_result Db.create_tables 1 (-1)); reflexivity.
Defined.

Section ComposeFacts.

Import Db.

Lemma no_rows_no_match (t : list data_row) (u : Z) (d : string) :
  filter (of_user u) t = [] -> existsb (matches u d) t = false.
Proof.
  intros Hf. induction t as [|r t IH]; [reflexivity|].
  cbn [filter existsb] in *. unfold matches, of_user in *.
  destruct (row_user r =? u)%Z; [discriminate|]. cbn [andb orb]. now apply IH.
Qed.


Lemma period_limit_nonzero (period_days : Z) :
  (if (period_days =? 0)%Z then (-1)%Z else period_days) <> 0%Z.
Proof. destruct (Z.eqb_spec period_days 0); [discriminate|assumption]. Qed.


Lemma invalid_level_error (wd cd : list (R * string)) (sex : string)
      (age height : Z) (level : string) :
  List.length wd = List.length cd ->
  wd <> [] ->
  dict_get pal_dict level = None ->
  calculate_caloric_needs wd cd (Some (sex, age, height, level))
  = inl (ValueError "Invalid activity level.").
Proof.
  intros Hlen Hne Hlevel. unfold calculate_caloric_needs.
  rewrite Hlen, Nat.eqb_refl. cbn [negb].
  destruct wd as [|[w0 d] wrest]; [contradiction|].
  destruct cd as [|[c0 dc] crest]; [discriminate|].
  cbn [map fst]. now rewrite Hlevel.
Qed.

Lemma form_items_unknown (item : string) :
  In item activity_level_items -> dict_get pal_dict item = None.
Proof.
  unfold activity_level_items.
  intros [<-|[<-|[<-|[<-|[<-|[]]]]]]; reflexivity.
Qed.

Lemma select_profile_updated (c : conn) (u age height : Z) (level : string) :
  In u (map u_id (users c)) ->
  exists sex,
    select_profile (submit_updated_info c u age height level) u
    = Some (sex, age, height, level).
Proof.
  unfold select_profile, submit_updated_info. cbn [users].
  induction (users c) as [|v us IH]; cbn [map In find]; [contradiction|].
  destruct (Z.eqb_spec (u_id v) u) as [E|E].
  - intros _. cbn [u_id]. rewrite E, Z.eqb_refl. now exists (u_sex v).
  - intros [Hv|Hin]; [contradiction|].
    destruct (Z.eqb_spec (u_id v) u); [contradiction|]. now apply IH.
Qed.

Lemma select_recent_nonempty (t : list data_row) (u limit : Z) :
  limit <> 0%Z -> filter (of_user u) t <> [] -> select_recent t u limit <> [].
Proof.
  intros Hl Hne. unfold select_recent. apply sql_limit_nonempty; [exact Hl|].
  intros E. apply (f_equal (@List.length _)) in E.
  rewrite order_by_desc_length, length_map in E.
  destruct (filter (of_user u) t); [contradiction|discriminate].
Qed.

Lemma order_by_desc_map {A B : Type} (key : B -> string) (f : A -> B)
      (l : list A) :
  order_by_desc key (map f l) = map f (order_by_desc (fun x => key (f x)) l).
Proof.
  induction l as [|x l IH]; [reflexivity|].
  cbn [map order_by_desc fold_right].
  fold (order_by_desc key (map f l)).
  fold (order_by_desc (fun x => key (f x)) l). rewrite IH.
  generalize (order_by_desc (fun x => key (f x)) l). intros s.
  induction s as [|y s IHs]; [reflexivity|].
  cbn [map insert_desc].
  destruct (String.leb (key (f y)) (key (f x))); [reflexivity|].
  cbn [map]. now rewrite IHs.
Qed.

Lemma in_firstn {A : Type} (n : nat) (l : list A) (x : A) :
  In x (firstn n l) -> In x l.
Proof.
  revert l. induction n as [|n IH]; intros [|y l]; simpl; try contradiction.
  intros [->|H]; [now left|right; now apply IH].
Qed.

Lemma in_window {A : Type} (p : option Z) (l : list A) (x : A) :
  In x (window p l) -> In x l.
Proof.
  unfold window. destruct p as [n|]; [|trivial].
  destruct (n =? 0)%Z; [trivial|apply in_firstn].
Qed.

Lemma entries_witness (t : list data_row) (u : Z) (d : string) :
  (1 <= entries t u d)%nat ->
  exists r rs, filter (matches u d) t = r :: rs.
Proof.
  unfold entries. destruct (filter (matches u d) t) as [|r rs]; simpl; [lia|].
  intros _. now exists r, rs.
Qed.

Lemma row_eta (r : data_row) : r = (row_user r, row_value r, row_date r).
Proof. destruct r as [[u v] d]. reflexivity. Qed.

Lemma matches_fields (u : Z) (d : string) (r : data_row) :
  matches u d r = true -> row_user r = u /\ row_date r = d.
Proof.
  unfold matches. intros H. apply andb_true_iff in H as [Hu Hd].
  apply Z.eqb_eq in Hu. apply String.eqb_eq in Hd. now split.
Qed.

Lemma matches_self (r : data_row) : matches (row_user r) (row_date r) r = true.
Proof. unfold matches. now rewrite Z.eqb_refl, String.eqb_refl. Qed.

Lemma matches_of_user (u : Z) (d : string) (r : data_row) :
  matches u d r = true -> of_user u r = true.
Proof. unfold matches, of_user. intros H. now apply andb_true_iff in H. Qed.

End ComposeFacts.

(** ** How the storage functions and the calculator compose *)



(** X8.  After a profile update with any entry of the form's activity-level box,
    the calculator fails with "Invalid activity level." for that user as
    soon as the user has data: none of the five texts is a key of the
    activity table. *)
Theorem form_activity_level_is_rejected
        (c : Db.conn) (user_id age height : Z) (item : string)
        (period_days : Z) :
  In item activity_level_items ->
  In user_id (map Db.u_id (Db.users c)) ->
  Db.synced c ->
  filter (Db.of_user user_id) (Db.weights c) <> [] ->
  Db.calculate_caloric_needs_conn
    (Db.submit_updated_info c user_id age height item) user_id period_days
  = inl (ValueError "Invalid activity level.").
Proof.
  intros Hitem Huser Hs Hdata.
  destruct (select_profile_updated c user_id age height item Huser)
    as [sex Hprofile].
  unfold Db.calculate_caloric_needs_conn. rewrite Hprofile.
  cbn [Db.submit_updated_info Db.weights Db.calories].
  apply invalid_level_error.
  - now apply synced_selects.
  - apply select_recent_nonempty; [apply period_limit_nonzero|exact Hdata].
  - now apply form_items_unknown.
Qed.

Lemma form_activity_level_is_rejected_witness :
  Db.calculate_caloric_needs_conn
    (Db.submit_updated_info
       (Db.mk_conn [Db.mk_user 1 "alice" "hash" "Female" 30 65 "sedentary"]
                   [(1%Z, 150, "2025-01-2")] [(1%Z, 2000, "2025-01-2")])
       1 31 65 "Sedentary (little or no exercise)")
    1 (-1)
  = inl (ValueError "Invalid activity level.").
Proof.
  apply form_activity_level_is_rejected.
  - now left.
  - now left.
  - apply (upserted_synced
             (Db.mk_conn [Db.mk_user 1 "alice" "hash" "Female" 30 65 "sedentary"]
                         [] [])
             1 "2025-01-2" 150 2000).
    intros u d. reflexivity.
  - cbn. discriminate.
Defined.

(** X9.  A negative period empties the trend and the data views, whereas the
    calculator reads a negative period as "all rows": it then works on
    exactly the rows the trend view shows for no period at all. *)
Theorem negative_period_differs (c : Db.conn) (user_id n : Z) :
  (n < 0)%Z ->
  Db.get_trend_data c user_id (Some n) = []
  /\ Db.get_view_data c user_id (Some n) = []
  /\ Db.select_recent (Db.weights c) user_id n
     = map (fun dw => (snd dw, fst dw)) (Db.get_trend_data c user_id None).
Proof.
  intros Hn.
  assert (E0 : (n =? 0)%Z = false) by (apply Z.eqb_neq; lia).
  assert (En : Z.to_nat n = 0%nat) by lia.
  split; [|split].
  - unfold Db.get_trend_data, Db.window. now rewrite E0, En.
  - unfold Db.get_view_data, Db.window. now rewrite E0, En.
  - unfold Db.select_recent, Db.get_trend_data, Db.window, Db.sql_limit.
    replace (n <? 0)%Z with true by (symmetry; apply Z.ltb_lt; lia).
    rewrite !order_by_desc_map, map_map. reflexivity.
Qed.

Lemma negative_period_differs_witness :
  Db.get_trend_data
    (Db.mk_conn [] [(1%Z, 150, "2025-01-2")] [(1%Z, 2000, "2025-01-2")])
    1 (Some (-1)%Z) = []
  /\ Db.select_recent [(1%Z, 150, "2025-01-2")] 1 (-1) = [(150, "2025-01-2")].
Proof.
  destruct (negative_period_differs
              (Db.mk_conn [] [(1%Z, 150, "2025-01-2")] [(1%Z, 2000, "2025-01-2")])
              1 (-1) eq_refl) as (H1 & _ & H3).
  split; [exact H1|exact H3].
Defined.

(** X10.  The data view lists the day just entered with its weight and calories;
    and while the tables are in step with one row per day, it shows one row
    per stored weight, none of them with the calories missing. *)
Theorem data_view_shows_entries
        (c : Db.conn) (user_id : Z) (date : string) (weight calories_value : R)
        (reply_yes : bool) :
  (snd (Db.weight_entry c user_id date weight calories_value reply_yes)
   = Db.Success ->
   In (date, weight, Some calories_value)
      (Db.get_view_data
         (fst (Db.weight_entry c user_id date weight calories_value reply_yes))
         user_id None))
  /\ (Db.synced c ->
      forall period_days row,
        In row (Db.get_view_data c user_id period_days) -> snd row <> None)
  /\ (Db.synced c -> Db.one_per_day c ->
      List.length (Db.get_view_data c user_id None)
      = List.length (filter (Db.of_user user_id) (Db.weights c))).
Proof.
  split; [|split].
  - intros Hs. rewrite (weight_entry_success _ _ _ _ _ _ Hs).
    unfold Db.get_view_data, Db.window. cbn [Db.weights Db.calories].
    eapply Permutation_in; [apply order_by_desc_perm|].
    apply in_flat_map.
    destruct (entries_witness _ _ _ (upserted_present (Db.weights c) user_id
                                                      date weight))
      as (r & rs & Hr).
    assert (Hin : In r (filter (Db.matches user_id date)
                               (Db.upserted (Db.weights c) user_id date weight)))
      by (rewrite Hr; now left).
    apply filter_In in Hin as [Hin Hm].
    exists r. split.
    + apply filter_In. split; [exact Hin|now apply matches_of_user with date].
    + pose proof (upserted_value _ _ _ _ _ Hin Hm) as Hv.
      destruct (matches_fields _ _ _ Hm) as [Hu Hd].
      unfold Db.left_join. rewrite Hu, Hd, Hv.
      destruct (entries_witness _ _ _ (upserted_present (Db.calories c) user_id
                                                        date calories_value))
        as (k & ks & Hk).
      rewrite Hk. cbn [map]. left.
      assert (Hkin : In k (filter (Db.matches user_id date)
                                  (Db.upserted (Db.calories c) user_id date
                                            calories_value)))
        by (rewrite Hk; now left).
      apply filter_In in Hkin as [Hkin Hkm].
      now rewrite (upserted_value _ _ _ _ _ Hkin Hkm).
  - intros Hs period_days row Hrow.
    apply in_window in Hrow.
    eapply Permutation_in in Hrow; [|symmetry; apply order_by_desc_perm].
    apply in_flat_map in Hrow as [w [Hw Hrow]].
    apply filter_In in Hw as [Hw _].
    unfold Db.left_join in Hrow.
    destruct (filter _ (Db.calories c)) as [|k ks] eqn:Ek.
    + exfalso.
      assert (H1 : (1 <= Db.entries (Db.weights c) (Db.row_user w)
                                    (Db.row_date w))%nat).
      { unfold Db.entries.
        assert (In w (filter (Db.matches (Db.row_user w) (Db.row_date w))
                             (Db.weights c)))
          by (apply filter_In; split; [exact Hw|apply matches_self]).
        destruct (filter _ (Db.weights c)); [contradiction|simpl; lia]. }
      rewrite (Hs (Db.row_user w) (Db.row_date w)) in H1.
      unfold Db.entries in H1. rewrite Ek in H1. simpl in H1. lia.
    + apply in_map_iff in Hrow as [k' [<- _]]. discriminate.
  - intros Hs Ho. unfold Db.get_view_data, Db.window.
    rewrite order_by_desc_length.
    assert (Hone : forall w, In w (Db.weights c) ->
                             List.length (Db.left_join (Db.calories c) w) = 1%nat).
    { intros w Hw. unfold Db.left_join.
      destruct (filter _ (Db.calories c)) as [|k ks] eqn:Ek; [reflexivity|].
      destruct (Ho (Db.row_user w) (Db.row_date w)) as [_ Hk].
      unfold Db.entries in Hk. rewrite Ek in Hk.
      destruct ks; [reflexivity|simpl in Hk; lia]. }
    assert (Hsub : forall w, In w (filter (Db.of_user user_id) (Db.weights c)) ->
                             In w (Db.weights c))
      by (intros w Hw; now apply filter_In in Hw).
    induction (filter (Db.of_user user_id) (Db.weights c)) as [|w ws IH];
      [reflexivity|].
    cbn [flat_map]. rewrite length_app, Hone by (apply Hsub; now left).
    cbn [List.length]. rewrite IH; [reflexivity|].
    intros w' Hw'. apply Hsub. now right.
Qed.

Lemma data_view_shows_entries_witness :
  In ("2025-01-2", 150, Some 2000)
     (Db.get_view_data
        (fst (Db.weight_entry Db.create_tables 1 "2025-01-2" 150 2000 false))
        1 None).
Proof.
  apply (proj1 (data_view_shows_entries
                  Db.create_tables 1 "2025-01-2" 150 2000 false)).
  reflexivity.
Defined.

(** ** Dates as text *)

Section DateFacts.

Import Db.

Lemma ascii_compare_refl (ch : ascii) : Ascii.compare ch ch = Eq.
Proof. unfold Ascii.compare. apply N.compare_refl. Qed.

Lemma string_compare_refl (s : string) : String.compare s s = Eq.
Proof.
  induction s as [|ch s IH]; [reflexivity|].
  cbn [String.compare]. now rewrite ascii_compare_refl.
Qed.

Lemma leb_append_prefix (p a b : string) :
  String.leb (p ++ a) (p ++ b) = String.leb a b.
Proof.
  unfold String.leb. induction p as [|ch p IH]; [reflexivity|].
  cbn [String.append String.compare]. now rewrite ascii_compare_refl.
Qed.

Lemma leb_selected_date (year month day day' : Z) :
  String.leb (selected_date year month day) (selected_date year month day')
  = String.leb (string_of_Z day) (string_of_Z day').
Proof. unfold selected_date. now rewrite !leb_append_prefix. Qed.

Lemma leb_false_neq (a b : string) : String.leb a b = false -> a <> b.
Proof.
  intros H ->. unfold String.leb in H. rewrite string_compare_refl in H.
  discriminate.
Qed.

(** A one-digit day compared as text with a two-digit day whose first
    digit is smaller. *)
Lemma day_text_order (day day' : Z) :
  (1 <= day <= 9)%Z -> (10 <= day' <= 31)%Z -> (day' / 10 < day)%Z ->
  String.leb (string_of_Z day') (string_of_Z day) = true
  /\ String.leb (string_of_Z day) (string_of_Z day') = false.
Proof.
  intros Hd Hd' Hlt.
  assert (Hin : In day (map Z.of_nat (seq 1 9))).
  { apply in_map_iff. exists (Z.to_nat day). split; [lia|].
    apply in_seq. lia. }
  assert (Hin' : In day' (map Z.of_nat (seq 10 22))).
  { apply in_map_iff. exists (Z.to_nat day'). split; [lia|].
    apply in_seq. lia. }
  assert (Hall :
    forallb (fun d =>
      forallb (fun d' =>
        if (d' / 10 <? d)%Z then
          String.leb (string_of_Z d') (string_of_Z d)
          && negb (String.leb (string_of_Z d) (string_of_Z d'))
        else true) (map Z.of_nat (seq 10 22))) (map Z.of_nat (seq 1 9))
    = true) by (vm_compute; reflexivity).
  rewrite forallb_forall in Hall. specialize (Hall day Hin).
  rewrite forallb_forall in Hall. specialize (Hall day' Hin').
  apply Z.ltb_lt in Hlt. rewrite Hlt in Hall.
  apply andb_true_iff in Hall as [H1 H2].
  split; [exact H1|]. now apply negb_true_iff in H2.
Qed.

Lemma two_entries_rows (t : list data_row) (u : Z) (d1 d2 : string) (v1 v2 : R) :
  filter (of_user u) t = [] -> d1 <> d2 ->
  filter (of_user u) (upserted (upserted t u d1 v1) u d2 v2)
  = [(u, v1, d1); (u, v2, d2)].
Proof.
  intros Hnone Hneq. unfold upserted at 2.
  rewrite (no_rows_no_match _ _ d1 Hnone).
  unfold upserted. rewrite existsb_app, (no_rows_no_match _ _ d2 Hnone).
  cbn [existsb orb]. unfold matches at 1. cbn [row_user row_date fst snd].
  replace (String.eqb d1 d2) with false
    by (symmetry; now apply String.eqb_neq).
  rewrite andb_false_r. cbn [orb].
  rewrite !filter_app, Hnone. cbn [filter app].
  unfold of_user, row_user. cbn [fst]. now rewrite Z.eqb_refl.
Qed.

Lemma weight_entry_fresh (c : conn) (u : Z) (d : string) (w k : R)
      (reply_yes : bool) :
  existsb (matches u d) (weights c) = false ->
  existsb (matches u d) (calories c) = false ->
  weight_entry c u d w k reply_yes
  = (mk_conn (users c) (upserted (weights c) u d w)
             (upserted (calories c) u d k), Success).
Proof.
  intros H1 H2. unfold weight_entry, upserted. now rewrite H1, H2.
Qed.

End DateFacts.

(** X11.  Two days of one month are entered through the form, first a one-digit
    day, then a later two-digit day whose first digit is smaller (the 9th
    and the 10th, the 4th and the 31st).  The day is stored without a
    leading zero and the rows are ordered as text, so the calculator's
    query lists the earlier day first: its weight is the "current" weight
    [weights[0]]. *)
Theorem later_day_sorts_after_earlier
        (c : Db.conn) (user_id year month day day' : Z)
        (w k w' k' : R) (reply reply' : bool) :
  filter (Db.of_user user_id) (Db.weights c) = [] ->
  filter (Db.of_user user_id) (Db.calories c) = [] ->
  (1 <= day <= 9)%Z -> (10 <= day' <= 31)%Z -> (day' / 10 < day)%Z ->
  let earlier := selected_date year month day in
  let later := selected_date year month day' in
  let c1 := fst (Db.weight_entry c user_id earlier w k reply) in
  let c2 := fst (Db.weight_entry c1 user_id later w' k' reply') in
  Db.select_recent (Db.weights c2) user_id (-1) = [(w, earlier); (w', later)]
  /\ Db.select_recent (Db.calories c2) user_id (-1)
     = [(k, earlier); (k', later)].
Proof.
  intros Hw Hc Hd Hd' Hlt earlier later c1 c2.
  destruct (day_text_order day day' Hd Hd' Hlt) as [Hle Hnle].
  rewrite <- (leb_selected_date year month) in Hle, Hnle.
  fold earlier later in Hle, Hnle.
  pose proof (leb_false_neq _ _ Hnle) as Hneq.
  assert (Hno : forall t v,
             filter (Db.of_user user_id) t = [] ->
             existsb (Db.matches user_id later)
                     (Db.upserted t user_id earlier v) = false).
  { intros t v Ht. unfold Db.upserted.
    rewrite (no_rows_no_match _ _ earlier Ht), existsb_app,
      (no_rows_no_match _ _ later Ht).
    cbn [existsb orb]. unfold Db.matches. cbn [Db.row_date snd].
    replace (String.eqb earlier later) with false
      by (symmetry; now apply String.eqb_neq).
    now rewrite andb_false_r. }
  assert (E1 : c1 = Db.mk_conn (Db.users c)
                               (Db.upserted (Db.weights c) user_id earlier w)
                               (Db.upserted (Db.calories c) user_id earlier k)).
  { subst c1. rewrite weight_entry_fresh; [reflexivity| |];
      now apply no_rows_no_match. }
  assert (E2 : c2 = Db.mk_conn
                      (Db.users c1)
                      (Db.upserted (Db.weights c1) user_id later w')
                      (Db.upserted (Db.calories c1) user_id later k')).
  { subst c2. rewrite weight_entry_fresh; [reflexivity| |];
      rewrite E1; cbn [Db.weights Db.calories]; now apply Hno. }
  rewrite E2, E1. cbn [Db.weights Db.calories].
  unfold Db.select_recent, Db.sql_limit. cbn [Z.ltb Z.compare].
  rewrite !two_entries_rows by assumption.
  cbn [map Db.order_by_desc fold_right Db.insert_desc Db.row_value Db.row_date
       fst snd].
  now rewrite Hle.
Qed.

Lemma later_day_sorts_after_earlier_witness :
  Db.select_recent
    (Db.weights
       (fst (Db.weight_entry
               (fst (Db.weight_entry Db.create_tables 1
                                     (selected_date 2025 1 9) 150 2000 false))
               1 (selected_date 2025 1 10) 151 2100 false)))
    1 (-1)
  = [(150, selected_date 2025 1 9); (151, selected_date 2025 1 10)].
Proof.
  apply (later_day_sorts_after_earlier
           Db.create_tables 1 2025 1 9 10 150 2000 151 2100 false false);
    try reflexivity; lia.
Defined.

(** ** Facts about export and import *)

Section ExportFacts.

Import Db.

Lemma list_insert_length {A : Type} (i : nat) (x : A) (l : list A) :
  List.length (list_insert i x l) = S (List.length l).
Proof.
  unfold list_insert. rewrite length_app. cbn [List.length].
  rewrite <- (firstn_skipn i l) at 3. rewrite length_app. lia.
Qed.

Lemma padded_insert (i : nat) (v : R) (values : list (option R)) :
  padded values -> padded (list_insert (S i) (Some v) values).
Proof.
  intros [rest [-> Hlen]]. exists (list_insert i (Some v) rest).
  split; [reflexivity|]. rewrite list_insert_length. lia.
Qed.

Lemma padded_default (i : nat) (v : R) :
  (i <= 1)%nat -> padded (list_insert (S i) (Some v) [None; None]).
Proof.
  intros Hi. destruct i as [|[|i]]; [| |lia]; eexists; split;
    try reflexivity; simpl; lia.
Qed.

Lemma dd_insert_padded (data : list (string * list (option R))) (d : string)
      (i : nat) (v : R) :
  (i <= 1)%nat ->
  Forall (fun row => padded (snd row)) data ->
  Forall (fun row => padded (snd row)) (dd_insert data d (S i) v).
Proof.
  intros Hi. induction 1 as [|[d0 values] data Hrow Hdata IH]; cbn [dd_insert].
  - constructor; [now apply padded_default|constructor].
  - destruct (String.eqb d0 d).
    + constructor; [now apply padded_insert|exact Hdata].
    + constructor; [exact Hrow|exact IH].
Qed.

Lemma fold_insert_padded (i : nat) (rows : list (string * R))
      (data : list (string * list (option R))) :
  (i <= 1)%nat ->
  Forall (fun row => padded (snd row)) data ->
  Forall (fun row => padded (snd row))
         (fold_left (fun data dv => dd_insert data (fst dv) (S i) (snd dv))
                    rows data).
Proof.
  intros Hi. revert data.
  induction rows as [|dv rows IH]; intros data Hdata; [exact Hdata|].
  cbn [fold_left]. apply IH. now apply dd_insert_padded.
Qed.

Lemma dd_get_insert_same (data : list (string * list (option R))) (d : string)
      (i : nat) (v : R) :
  dd_get (dd_insert data d i v) d
  = Some (list_insert i (Some v)
                      (match dd_get data d with
                       | Some values => values
                       | None => [None; None]
                       end)).
Proof.
  induction data as [|[d0 values] data IH]; cbn [dd_insert dd_get].
  - now rewrite String.eqb_refl.
  - destruct (String.eqb d0 d) eqn:E; cbn [dd_get]; rewrite E;
      [reflexivity|exact IH].
Qed.

Lemma dd_get_insert_other (data : list (string * list (option R)))
      (d d' : string) (i : nat) (v : R) :
  d <> d' -> dd_get (dd_insert data d i v) d' = dd_get data d'.
Proof.
  intros Hneq. induction data as [|[d0 values] data IH]; cbn [dd_insert dd_get].
  - now replace (String.eqb d d') with false
      by (symmetry; now apply String.eqb_neq).
  - destruct (String.eqb_spec d0 d) as [->|E]; cbn [dd_get].
    + now replace (String.eqb d d') with false
        by (symmetry; now apply String.eqb_neq).
    + now rewrite IH.
Qed.

Lemma dd_get_in (data : list (string * list (option R))) (d : string)
      (values : list (option R)) :
  dd_get data d = Some values -> In (d, values) data.
Proof.
  induction data as [|[d0 vs] data IH]; cbn [dd_get]; [discriminate|].
  destruct (String.eqb_spec d0 d) as [->|_].
  - intros [= ->]. now left.
  - intros H. right. now apply IH.
Qed.

Lemma dd_get_fold (i : nat) (rows : list (string * R))
      (data : list (string * list (option R))) (d : string) :
  dd_get (fold_left (fun data dv => dd_insert data (fst dv) i (snd dv))
                    rows data) d
  = fold_left (fun o v =>
                 Some (list_insert i (Some v)
                                   (match o with
                                    | Some values => values
                                    | None => [None; None]
                                    end)))
              (map snd (filter (fun dv => String.eqb (fst dv) d) rows))
              (dd_get data d).
Proof.
  revert data. induction rows as [|[d0 v] rows IH]; intros data; [reflexivity|].
  cbn [fold_left filter fst snd]. rewrite IH.
  destruct (String.eqb_spec d0 d) as [->|Hneq].
  - cbn [map fold_left snd]. now rewrite dd_get_insert_same.
  - now rewrite dd_get_insert_other.
Qed.

Lemma values_of_day (t : list data_row) (u : Z) (d : string) :
  map snd (filter (fun dv => String.eqb (fst dv) d)
                  (map (fun r => (row_date r, row_value r))
                       (filter (of_user u) t)))
  = map row_value (filter (matches u d) t).
Proof.
  induction t as [|r t IH]; [reflexivity|].
  cbn [filter]. unfold matches, of_user in *.
  destruct (row_user r =? u)%Z; cbn [andb map filter fst]; [|exact IH].
  destruct (String.eqb (row_date r) d); cbn [map snd]; now rewrite IH.
Qed.

(** The list [export_db_to_csv] holds for a date, from the values of the
    user's rows of that date. *)
Lemma export_get (c : conn) (u : Z) (d : string) :
  dd_get (export_db_to_csv c u) d
  = fold_left (fun o v =>
                 Some (list_insert 2 (Some v)
                                   (match o with
                                    | Some values => values
                                    | None => [None; None]
                                    end)))
              (map row_value (filter (matches u d) (calories c)))
              (fold_left (fun o v =>
                            Some (list_insert 1 (Some v)
                                              (match o with
                                               | Some values => values
                                               | None => [None; None]
                                               end)))
                         (map row_value (filter (matches u d) (weights c)))
                         None).
Proof.
  unfold export_db_to_csv. now rewrite !dd_get_fold, !values_of_day.
Qed.

Lemma import_tables (rows : list csv_row) (c : conn) (u : Z) :
  users (import_csv_to_db c rows u) = users c
  /\ weights (import_csv_to_db c rows u)
     = app (weights c) (imported_weights u rows)
  /\ calories (import_csv_to_db c rows u)
     = app (calories c) (imported_calories u rows).
Proof.
  unfold import_csv_to_db. revert c.
  induction rows as [|row rows IH]; intros c; cbn [fold_left].
  - cbn. now rewrite !app_nil_r.
  - destruct (IH (import_row u c row)) as (Hu & Hw & Hk).
    rewrite Hu, Hw, Hk. unfold import_row, imported_weights, imported_calories.
    simpl flat_map.
    destruct (csv_weight row), (csv_calories row);
      cbn [users weights calories]; rewrite <- ?app_assoc; cbn [app];
        repeat split; reflexivity.
Qed.

Lemma imported_weights_user (u : Z) (rows : list csv_row) :
  filter (of_user u) (imported_weights u rows) = imported_weights u rows.
Proof.
  unfold imported_weights. induction rows as [|row rows IH]; [reflexivity|].
  simpl flat_map. rewrite filter_app. f_equal; [|exact IH].
  destruct (csv_weight row); [|reflexivity].
  cbn [filter]. unfold of_user, row_user. cbn [fst]. now rewrite Z.eqb_refl.
Qed.

Lemma imported_calories_user (u : Z) (rows : list csv_row) :
  filter (of_user u) (imported_calories u rows) = imported_calories u rows.
Proof.
  unfold imported_calories. induction rows as [|row rows IH]; [reflexivity|].
  simpl flat_map. rewrite filter_app. f_equal; [|exact IH].
  destruct (csv_calories row); [|reflexivity].
  cbn [filter]. unfold of_user, row_user. cbn [fst]. now rewrite Z.eqb_refl.
Qed.

Lemma imported_weights_entry (u : Z) (rows : list csv_row) (row : csv_row)
      (w : R) :
  In row rows -> csv_weight row = Some w ->
  (1 <= entries (imported_weights u rows) u (csv_date row))%nat.
Proof.
  intros Hin Hw. unfold entries.
  assert (Hr : In (u, w, csv_date row)
                  (filter (matches u (csv_date row)) (imported_weights u rows))).
  { apply filter_In. split.
    - unfold imported_weights. apply in_flat_map. exists row.
      split; [exact Hin|]. rewrite Hw. now left.
    - now apply matches_key. }
  destruct (filter _ _); [contradiction|simpl; lia].
Qed.

End ExportFacts.

(** ** Properties of export and import *)

(** X12.  Every row [export_db_to_csv] writes has an empty field right after the
    date, under the header "Weight", and at least three value fields, so no
    row has the three columns of the header. *)
Theorem exported_rows_do_not_fit_header (c : Db.conn) (user_id : Z)
        (row : string * list (option R)) :
  In row (Db.export_db_to_csv c user_id) ->
  (exists rest, snd row = None :: rest /\ (2 <= List.length rest)%nat)
  /\ (List.length Db.csv_header < S (List.length (snd row)))%nat.
Proof.
  intros Hin.
  assert (Hall : Forall (fun row => Db.padded (snd row))
                        (Db.export_db_to_csv c user_id)).
  { unfold Db.export_db_to_csv.
    apply (fold_insert_padded 1); [lia|].
    apply (fold_insert_padded 0); [lia|constructor]. }
  rewrite Forall_forall in Hall. destruct (Hall row Hin) as [rest [E Hlen]].
  split; [now exists rest|]. rewrite E. cbn. lia.
Qed.

Lemma exported_rows_do_not_fit_header_witness :
  (List.length Db.csv_header
   < S (List.length [None; Some 150; Some 2000; None]))%nat.
Proof.
  apply (exported_rows_do_not_fit_header
           (Db.mk_conn [] [(1%Z, 150, "2025-01-2")] [(1%Z, 2000, "2025-01-2")])
           1 ("2025-01-2", [None; Some 150; Some 2000; None])).
  cbn. unfold Db.of_user, Db.row_user. cbn. now left.
Defined.

(** X13.  What is written for a day: with one weight and one calorie row the
    values are empty, weight, calories, empty, so the weight stands under
    "Calories"; with a weight alone they are empty, weight, empty; with
    calories alone they are empty, empty, calories. *)
Theorem exported_day_layout (c : Db.conn) (user_id : Z) (date : string) :
  (forall rw rk,
      filter (Db.matches user_id date) (Db.weights c) = [rw] ->
      filter (Db.matches user_id date) (Db.calories c) = [rk] ->
      In (date, [None; Some (Db.row_value rw); Some (Db.row_value rk); None])
         (Db.export_db_to_csv c user_id))
  /\ (forall rw,
         filter (Db.matches user_id date) (Db.weights c) = [rw] ->
         filter (Db.matches user_id date) (Db.calories c) = [] ->
         In (date, [None; Some (Db.row_value rw); None])
            (Db.export_db_to_csv c user_id))
  /\ (forall rk,
         filter (Db.matches user_id date) (Db.weights c) = [] ->
         filter (Db.matches user_id date) (Db.calories c) = [rk] ->
         In (date, [None; None; Some (Db.row_value rk)])
            (Db.export_db_to_csv c user_id)).
Proof.
  split; [|split]; intros; apply dd_get_in; rewrite export_get;
    repeat match goal with H : filter _ _ = _ |- _ => rewrite H; clear H end;
    reflexivity.
Qed.

Lemma exported_day_layout_witness :
  In ("2025-01-2", [None; Some 150; Some 2000; None])
     (Db.export_db_to_csv
        (fst (Db.weight_entry Db.create_tables 1 "2025-01-2" 150 2000 false)) 1).
Proof.
  apply (proj1 (exported_day_layout
                  (fst (Db.weight_entry Db.create_tables 1 "2025-01-2"
                                        150 2000 false))
                  1 "2025-01-2") (1%Z, 150, "2025-01-2") (1%Z, 2000, "2025-01-2"));
    reflexivity.
Defined.

(** X14.  Import only appends.  If a file holds a different number of weights
    and of calories, then on a database whose tables were in step the
    calculator afterwards fails for that user with the length error. *)
Theorem uneven_import_breaks_calculation
        (c : Db.conn) (rows : list Db.csv_row) (user_id period_days : Z) :
  Db.synced c ->
  (period_days <= 0)%Z ->
  List.length (Db.imported_weights user_id rows)
  <> List.length (Db.imported_calories user_id rows) ->
  Db.calculate_caloric_needs_conn (Db.import_csv_to_db c rows user_id)
                                  user_id period_days
  = inl (ValueError "Weights and calories lists must have the same length.").
Proof.
  intros Hs Hp Hne. unfold Db.calculate_caloric_needs_conn.
  apply length_mismatch_error.
  assert (Hlim : ((if (period_days =? 0)%Z then (-1)%Z else period_days) <? 0)%Z
                 = true).
  { destruct (Z.eqb_spec period_days 0); [reflexivity|apply Z.ltb_lt; lia]. }
  rewrite !select_recent_length by apply period_limit_nonzero.
  rewrite Hlim.
  destruct (import_tables rows c user_id) as (_ & -> & ->).
  rewrite !filter_app, !length_app, imported_weights_user,
    imported_calories_user.
  rewrite (synced_user_rows c user_id Hs). lia.
Qed.

Lemma uneven_import_breaks_calculation_witness :
  Db.calculate_caloric_needs_conn
    (Db.import_csv_to_db Db.create_tables
                         [Db.mk_csv_row "2025-01-02" (Some 150) None] 1)
    1 (-1)
  = inl (ValueError "Weights and calories lists must have the same length.").
Proof.
  apply uneven_import_breaks_calculation.
  - intros u d. reflexivity.
  - lia.
  - cbn. discriminate.
Defined.

(** X15.  Import never updates: a weight in the file adds a row even when the
    user already has one for that date, which then has two or more. *)
Theorem import_duplicates_days
        (c : Db.conn) (rows : list Db.csv_row) (user_id : Z)
        (row : Db.csv_row) (w : R) :
  In row rows -> Db.csv_weight row = Some w ->
  let c' := Db.import_csv_to_db c rows user_id in
  (Db.entries (Db.weights c) user_id (Db.csv_date row) + 1
   <= Db.entries (Db.weights c') user_id (Db.csv_date row))%nat
  /\ ((1 <= Db.entries (Db.weights c) user_id (Db.csv_date row))%nat ->
      ~ Db.one_per_day c').
Proof.
  intros Hin Hw c'.
  assert (H : (Db.entries (Db.weights c) user_id (Db.csv_date row) + 1
               <= Db.entries (Db.weights c') user_id (Db.csv_date row))%nat).
  { subst c'. destruct (import_tables rows c user_id) as (_ & -> & _).
    unfold Db.entries at 2. rewrite filter_app, length_app.
    fold (Db.entries (Db.weights c) user_id (Db.csv_date row)).
    fold (Db.entries (Db.imported_weights user_id rows) user_id
                     (Db.csv_date row)).
    pose proof (imported_weights_entry user_id rows row w Hin Hw). lia. }
  split; [exact H|].
  intros Hone Hday. destruct (Hday user_id (Db.csv_date row)) as [Hle _]. lia.
Qed.

Lemma import_duplicates_days_witness :
  ~ Db.one_per_day
      (Db.import_csv_to_db
         (Db.mk_conn [] [(1%Z, 150, "2025-01-02")] [(1%Z, 2000, "2025-01-02")])
         [Db.mk_csv_row "2025-01-02" (Some 151) (Some 2100%Z)] 1).
Proof.
  apply (proj2 (import_duplicates_days
                  (Db.mk_conn [] [(1%Z, 150, "2025-01-02")]
                              [(1%Z, 2000, "2025-01-02")])
                  [Db.mk_csv_row "2025-01-02" (Some 151) (Some 2100%Z)] 1
                  (Db.mk_csv_row "2025-01-02" (Some 151) (Some 2100%Z)) 151
                  (or_introl eq_refl) eq_refl)).
  cbn. lia.
Defined.

(** ** The printed rates *)

Section TextFacts.

Lemma py_round_nonneg (x : R) : 0 <= x -> (0 <= py_round x)%Z.
Proof.
  intros Hx. assert (H0 : (0 <= Zfloor x)%Z) by (apply Zfloor_lub; exact Hx).
  unfold py_round.
  destruct (Rltb _ _); [exact H0|].
  destruct (Rltb _ _); [lia|].
  destruct (Z.even _); lia.
Qed.

Lemma string_of_Z_head (z : Z) :
  (0 <= z)%Z ->
  exists ch rest, string_of_Z z = String ch rest /\ ch <> "-"%char.
Proof.
  intros Hz. unfold string_of_Z. destruct z as [|p|p]; [| |lia].
  - exists "0"%char, EmptyString. split; [reflexivity|discriminate].
  - cbn [Z.to_int NilZero.string_of_int].
    pose proof (Unsigned.to_uint_nonnil p) as Hnil.
    unfold NilZero.string_of_uint.
    destruct (Pos.to_uint p); [contradiction| | | | | | | | | |];
      cbn [NilEmpty.string_of_uint]; eexists; eexists;
        (split; [reflexivity|discriminate]).
Qed.

Lemma format_2f_nonneg_head (x : R) :
  0 <= x ->
  exists ch rest, format_2f x = String ch rest /\ ch <> "-"%char.
Proof.
  intros Hx. unfold format_2f.
  replace (Rltb x 0) with false by (symmetry; apply Rltb_false; exact Hx).
  assert (Hc : (0 <= py_round (Rabs x * 100) / 100)%Z).
  { apply Z.div_pos; [|lia]. apply py_round_nonneg.
    pose proof (Rabs_pos x). lra. }
  destruct (string_of_Z_head _ Hc) as (ch & rest & E & Hch).
  rewrite E. cbn [String.append]. eexists. eexists. split; [reflexivity|exact Hch].
Qed.



End TextFacts.

(** X16.  For a threshold that is not negative, [trend_summary] says
    "maintaining" exactly within the band, "gaining" with the rate above it
    and "losing" below it; the losing rate is printed as an absolute value,
    never with a minus sign. *)
Theorem trend_summary_cases (daily_weight_change avg_calories delta : R) :
  0 <= delta ->
  (- delta <= daily_weight_change <= delta ->
   trend_summary daily_weight_change avg_calories delta
   = "Eating " ++ string_of_Z (py_round avg_calories)
       ++ " calories on average, " ++ "you are maintaining your weight.")
  /\ (delta < daily_weight_change ->
      trend_summary daily_weight_change avg_calories delta
      = "Eating " ++ string_of_Z (py_round avg_calories)
          ++ " calories on average, " ++ "you are gaining weight at "
          ++ format_2f daily_weight_change ++ "lbs/day.")
  /\ (daily_weight_change < - delta ->
      exists ch rest,
        ch <> "-"%char
        /\ format_2f (- daily_weight_change) = String ch rest
        /\ trend_summary daily_weight_change avg_calories delta
           = "Eating " ++ string_of_Z (py_round avg_calories)
               ++ " calories on average, " ++ "you are losing weight at "
               ++ String ch rest ++ "lbs/day.").
Proof.
  intros Hdelta. unfold trend_summary. split; [|split].
  - intros [Hlo Hhi].
    replace (Rleb (Rabs daily_weight_change) delta) with true; [reflexivity|].
    symmetry. apply Rleb_true. apply Rabs_le. lra.
  - intros Hhi.
    replace (Rleb (Rabs daily_weight_change) delta) with false.
    + now replace (Rltb delta daily_weight_change) with true
        by (symmetry; now apply Rltb_true).
    + symmetry. apply Rleb_false. rewrite Rabs_right by lra. exact Hhi.
  - intros Hlo.
    assert (Habs : Rabs daily_weight_change = - daily_weight_change)
      by (apply Rabs_left; lra).
    destruct (format_2f_nonneg_head (- daily_weight_change)) as (ch & rest & E & Hch);
      [lra|].
    exists ch, rest. split; [exact Hch|]. split; [exact E|].
    rewrite Habs.
    replace (Rleb (- daily_weight_change) delta) with false
      by (symmetry; apply Rleb_false; lra).
    replace (Rltb delta daily_weight_change) with false
      by (symmetry; apply Rltb_false; lra).
    now rewrite E.
Qed.

Lemma trend_summary_cases_witness :
  trend_summary 0 2000 0.1
  = "Eating " ++ string_of_Z (py_round 2000)
      ++ " calories on average, " ++ "you are maintaining your weight.".
Proof.
  apply (proj1 (trend_summary_cases 0 2000 0.1 ltac:(lra))). lra.
Defined.



(** X18.  A positive period that covers all of a user's rows gives the same
    answer as no period. *)
Theorem covering_period_is_no_limit (c : Db.conn) (user_id period_days : Z) :
  (0 < period_days)%Z ->
  (List.length (filter (Db.of_user user_id) (Db.weights c))
   <= Z.to_nat period_days)%nat ->
  (List.length (filter (Db.of_user user_id) (Db.calories c))
   <= Z.to_nat period_days)%nat ->
  Db.calculate_caloric_needs_conn c user_id period_days
  = Db.calculate_caloric_needs_conn c user_id (-1).
Proof.
  intros Hp Hw Hc. unfold Db.calculate_caloric_needs_conn, Db.select_recent.
  replace (period_days =? 0)%Z with false by (symmetry; apply Z.eqb_neq; lia).
  cbn [Z.eqb]. unfold Db.sql_limit.
  replace (period_days <? 0)%Z with false by (symmetry; apply Z.ltb_ge; lia).
  cbn [Z.ltb Z.compare].
  rewrite !firstn_all2; [reflexivity| |];
    now rewrite order_by_desc_length, length_map.
Qed.

Lemma covering_period_is_no_limit_witness :
  Db.calculate_caloric_needs_conn
    (Db.mk_conn [] [(1%Z, 150, "2025-01-2")] [(1%Z, 2000, "2025-01-2")]) 1 7
  = Db.calculate_caloric_needs_conn
      (Db.mk_conn [] [(1%Z, 150, "2025-01-2")] [(1%Z, 2000, "2025-01-2")]) 1 (-1).
Proof.
  apply covering_period_is_no_limit; [lia| |]; cbn; lia.
Defined.

(** ** The labels of the trend tab *)

Section LabelFacts.


Lemma np_sum_bounds (m M : R) (xs : list R) :
  Forall (fun x => m <= x <= M) xs ->
  m * INR (List.length xs) <= np_sum xs <= M * INR (List.length xs).
Proof.
  induction 1 as [|x xs Hx Hxs IH].
  - simpl. lra.
  - cbn [np_sum fold_right]. fold (np_sum xs).
    change (List.length (x :: xs)) with (S (List.length xs)).
    rewrite S_INR. lra.
Qed.

End LabelFacts.


